(** * ReflexRuntime: the exception-to-patch orchestration pipeline

    A shallow embedding of [reflexruntime/core] (schemas.py, llm_client.py,
    orchestrator.py, debug_logger.py) and the properties its specification
    states about it.

    Conventions.
    - A Python [str] is a [string]; every character is a code point below 256.
    - A module namespace ([module.__dict__]) is a [gmap string PyValue];
      attribute lookup on a module is lookup in that map.
    - Python code that can raise returns a [Result]; a function that also
      mutates process state runs in the monad [M], where the state reached
      before a raise is kept, as in Python.
    - What the interpreter and the operating system decide ([exec],
      [json.loads], [importlib], the clock, the file system, the model
      service) is a field of the record [Host].
    - Console output ([print], [traceback.print_tb]) is not modelled. *)

From Stdlib Require Import Ascii PrimFloat FloatOps SpecFloat.
From stdpp Require Import base gmap strings list pretty sorting.

Local Open Scope string_scope.
#[local] Set Warnings "-register-all,-inexact-float".

(** ** Python strings *)

Module PyStr.

Definition nl : string := String (Ascii.ascii_of_nat 10) EmptyString.

(** [str.isspace] on one code point below 256; the same class is the
    regular expression [\s] on a [str] pattern. *)
Definition is_space (c : ascii) : bool :=
  let n := Ascii.nat_of_ascii c in
  (Nat.leb 9 n && Nat.leb n 13) || (Nat.leb 28 n && Nat.leb n 32)
  || Nat.eqb n 133 || Nat.eqb n 160.

Definition is_lower (c : ascii) : bool :=
  let n := Ascii.nat_of_ascii c in Nat.leb 97 n && Nat.leb n 122.
Definition is_upper (c : ascii) : bool :=
  let n := Ascii.nat_of_ascii c in Nat.leb 65 n && Nat.leb n 90.
Definition is_digit (c : ascii) : bool :=
  let n := Ascii.nat_of_ascii c in Nat.leb 48 n && Nat.leb n 57.

(** [[a-zA-Z_]] and [[a-zA-Z0-9_]]. *)
Definition is_ident_start (c : ascii) : bool :=
  is_lower c || is_upper c || Ascii.eqb c "_".
Definition is_ident_char (c : ascii) : bool :=
  is_ident_start c || is_digit c.

Fixpoint take_while (p : ascii -> bool) (s : string) : string :=
  match s with
  | String c r => if p c then String c (take_while p r) else EmptyString
  | EmptyString => EmptyString
  end.

Fixpoint drop_while (p : ascii -> bool) (s : string) : string :=
  match s with
  | String c r => if p c then drop_while p r else s
  | EmptyString => EmptyString
  end.

(** [strip_prefix p s] is [Some r] when [s = p ++ r]. *)
Fixpoint strip_prefix (p s : string) : option string :=
  match p, s with
  | EmptyString, _ => Some s
  | String a p', String b s' =>
      if Ascii.eqb a b then strip_prefix p' s' else None
  | String _ _, EmptyString => None
  end.

Definition startswith (p s : string) : bool :=
  match strip_prefix p s with Some _ => true | None => false end.

(** [sub in s] *)
Fixpoint contains (sub s : string) : bool :=
  if startswith sub s then true
  else match s with
       | String _ r => contains sub r
       | EmptyString => false
       end.

Definition rev (s : string) : string :=
  String.string_of_list_ascii (List.rev (String.list_ascii_of_string s)).

Definition endswith (suffix s : string) : bool :=
  startswith (rev suffix) (rev s).

Definition lstrip (s : string) : string := drop_while is_space s.
Definition rstrip (s : string) : string := rev (drop_while is_space (rev s)).
Definition strip (s : string) : string := rstrip (lstrip s).

(** Split at the last occurrence of [sep]: [Some (before, after)]. *)
Fixpoint split_last (sep : ascii) (s : string) : option (string * string) :=
  match s with
  | EmptyString => None
  | String c r =>
      match split_last sep r with
      | Some (a, b) => Some (String c a, b)
      | None => if Ascii.eqb c sep then Some (EmptyString, r) else None
      end
  end.

(** [s.split('.')[-1]] *)
Definition last_segment (s : string) : string :=
  match split_last "." s with Some (_, b) => b | None => s end.

(** [s.rsplit('.', 1)[0]] *)
Definition before_last_dot (s : string) : string :=
  match split_last "." s with Some (a, _) => a | None => s end.

(** [s.replace(a, b)] for one-character [a] and [b]. *)
Fixpoint replace_char (a b : ascii) (s : string) : string :=
  match s with
  | EmptyString => EmptyString
  | String c r => String (if Ascii.eqb c a then b else c) (replace_char a b r)
  end.

Fixpoint all_chars (p : ascii -> bool) (s : string) : bool :=
  match s with
  | EmptyString => true
  | String c r => p c && all_chars p r
  end.

(** [os.path.basename] (POSIX). *)
Definition basename (p : string) : string :=
  match split_last "/" p with Some (_, b) => b | None => p end.

(** [os.path.splitext(p)[0]] for a [p] without a separator: the last dot
    starts the extension unless only dots precede it. *)
Definition splitext_root (p : string) : string :=
  match split_last "." p with
  | Some (a, _) => if all_chars (Ascii.eqb ".") a then p else a
  | None => p
  end.

(** [sep.join(l)] *)
Fixpoint join (sep : string) (l : list string) : string :=
  match l with
  | [] => EmptyString
  | [x] => x
  | x :: r => x +:+ sep +:+ join sep r
  end.

(** [str(n)] for an [int]. *)
Definition of_Z (z : Z) : string := pretty z.

End PyStr.

(** ** Exceptions *)

Module Exc.

(** The exception classes that occur in the pipeline. Only classes
    deriving from [Exception] are modelled: [SystemExit] and
    [KeyboardInterrupt] end the process and pass every handler below. *)
Inductive Class :=
| Exception
| SyntaxError | ImportError | ModuleNotFoundError
| ValueError | JSONDecodeError | ValidationError
| TypeError | AttributeError | NameError | KeyError
| OSError | ZeroDivisionError | OverflowError | RuntimeError.

#[export] Instance class_eq_dec : EqDecision Class.
Proof. solve_decision. Defined.

(** The nearest base class among the modelled ones. *)
Definition base (c : Class) : option Class :=
  match c with
  | Exception => None
  | ModuleNotFoundError => Some ImportError
  | JSONDecodeError | ValidationError => Some ValueError
  | _ => Some Exception
  end.

(** [issubclass c d]; the hierarchy is two levels deep below
    [Exception]. *)
Definition issubclass (c d : Class) : bool :=
  bool_decide (c = d)
  || match base c with
     | None => false
     | Some c1 =>
         bool_decide (c1 = d)
         || match base c1 with
            | None => false
            | Some c2 => bool_decide (c2 = d)
            end
     end.

(** A raised exception: its class and [str(e)]. *)
Record t := Raised { cls : Class; msg : string }.

End Exc.

(** The outcome of an expression that may raise. *)
Inductive Result (A : Type) :=
| Ok (a : A)
| Raise (e : Exc.t).
Arguments Ok {A} a.
Arguments Raise {A} e.

(** ** Python values, JSON, and the data of schemas.py *)

(** The objects a module namespace or a frame can hold, as far as the
    pipeline distinguishes them. *)
Inductive PyValue :=
| VNone
| VBool (b : bool)
| VInt (z : Z)
| VStr (s : string)
| VFunction (src : string)   (* the function object a [def] with this source creates *)
| VObject (repr : string).   (* any other object *)


#[export] Instance PyValue_eq_dec : EqDecision PyValue.
Proof. solve_decision. Defined.

(** A module's [__dict__]. *)
Abbreviation Namespace := (gmap string PyValue).

(** What [json.loads] returns. An object keeps its members in document
    order; a later duplicate key wins, as in the [dict] Python builds. *)
Inductive JSON :=
| JNull
| JBool (b : bool)
| JInt (z : Z)
| JFloat (f : float)
| JStr (s : string)
| JArr (l : list JSON)
| JObj (members : list (string * JSON)).

(** What [handle] can return: [True], [False], or [None] when control
    reaches the end of the function body. *)
Inductive PyRet := RTrue | RFalse | RNone.

Definition truthy (r : PyRet) : bool :=
  match r with RTrue => true | _ => false end.

Definition ret_of_bool (b : bool) : PyRet := if b then RTrue else RFalse.

(** [class ErrorContext(BaseModel)] *)
Record ErrorContext := mkErrorContext {
  exception_type : string;
  exception_message : string;
  traceback_str : string;
  target_fqn : string;
  source_code : string;
  file_path : string;
  line_number : Z;
  local_vars : list (string * PyValue)
}.

(** [class PatchProposal(BaseModel)]; the class-level defaults are
    [PatchProposal_default_confidence] and the empty list. *)
Record PatchProposal := mkPatchProposal {
  patch_code : string;
  explanation : string;
  confidence : float;
  test_cases : list string
}.

Definition PatchProposal_default_confidence : float := 0.8%float.

(** The exception type and value handed to a hook: [exc_type.__name__] and
    [str(exc_value)]. *)
Record ExcType := { type_name : string }.
Record ExcValue := { str_value : string }.

(** A traceback head: what [from_traceback] reads from [tb] and
    [tb.tb_frame]. [f_locals] is [None] when [dict(frame.f_locals)] raises;
    [globals_name] is [frame.f_globals.get('__name__')]. *)
Record Traceback := {
  tb_lineno : Z;
  co_filename : string;
  co_name : string;
  globals_name : option string;
  f_locals : option (list (string * PyValue));
  formatted : string   (* ''.join(traceback.format_exception(type, value, tb)) *)
}.

(** ** The host: interpreter, operating system and model service *)

(** A file of a log directory: its text, or a file that cannot be read. *)
Inductive File :=
| Text (content : string)
| Unreadable.

(** The outcome of [exec(code, ns)]: the namespace it leaves, and the
    exception if the code raised. *)
Inductive ExecOutcome :=
| ExecDone (ns : Namespace)
| ExecRaised (e : Exc.t) (ns : Namespace).

Record Host := {
  (** [os.getenv] *)
  getenv : string -> option string;
  (** The prompt built from the context, sent as one chat request:
      [Ok (Some text)] is [response.choices[0].message.content];
      [Ok None] a reply without content; [Raise] a transport or API error. *)
  chat_completion : ErrorContext -> Result (option string);
  (** [json.loads]; [None] is [JSONDecodeError]. *)
  json_loads : string -> option JSON;
  (** [float(s)] for a [str]; [None] is [ValueError]. *)
  float_of_str : string -> option float;
  (** [format(x, '.1%')] *)
  format_percent : float -> string;
  (** [json.dumps(d, default=str, indent=2)]; [None] when it raises. *)
  json_dumps : list (string * PyValue) -> option string;
  (** [str(d)] for a [dict]. *)
  str_of_dict : list (string * PyValue) -> string;
  (** [exec(code, ns)] *)
  py_exec : string -> Namespace -> ExecOutcome;
  (** [int(time.time())] and [datetime.now().strftime(...)] *)
  epoch_seconds : Z;
  strftime_now : string;
  (** [linecache.getline(path, i)]; the empty string when there is no such
      line. *)
  linecache_getline : string -> Z -> string;
  (** Whether [os.makedirs(dir)] succeeds, and whether a file of that
      name can be opened for writing in an existing directory. *)
  makedirs_ok : string -> bool;
  open_write_ok : string -> string -> bool
}.

(** [LLMClient] and [DebugLogger] instances. *)
Record LLMClient := { api_key : string; model : string }.
Record DebugLogger := { debug_dir : string }.

(** [SimpleOrchestrator] instance attributes. *)
Record SimpleOrchestrator := mkOrchestrator {
  _active_patches : list (string * PyValue);
  patches_applied : Z;
  debug : bool
}.

(** [SimpleOrchestrator.__init__] *)
Definition SimpleOrchestrator_init : SimpleOrchestrator :=
  {| _active_patches := []; patches_applied := 0; debug := true |}.

(** The mutable state of the process: the orchestrator [self], the loaded
    modules ([__main__] among them), the module-level singletons, the
    directories of the file system, and the calls made so far to the
    exception hook that was installed before ours. *)
Record Process := mkProcess {
  self : SimpleOrchestrator;
  modules : gmap string Namespace;
  _global_llm_client : option LLMClient;
  _global_debug_logger : option DebugLogger;
  fs : gmap string (gmap string File);
  original_excepthook_calls : list (ExcType * ExcValue * option Traceback)
}.

Definition set_self (o : SimpleOrchestrator) (p : Process) : Process :=
  mkProcess o (modules p) (_global_llm_client p) (_global_debug_logger p)
            (fs p) (original_excepthook_calls p).
Definition set_modules (m : gmap string Namespace) (p : Process) : Process :=
  mkProcess (self p) m (_global_llm_client p) (_global_debug_logger p)
            (fs p) (original_excepthook_calls p).
Definition set_llm_client (c : option LLMClient) (p : Process) : Process :=
  mkProcess (self p) (modules p) c (_global_debug_logger p)
            (fs p) (original_excepthook_calls p).
Definition set_debug_logger (l : option DebugLogger) (p : Process) : Process :=
  mkProcess (self p) (modules p) (_global_llm_client p) l
            (fs p) (original_excepthook_calls p).
Definition set_fs (f : gmap string (gmap string File)) (p : Process) : Process :=
  mkProcess (self p) (modules p) (_global_llm_client p) (_global_debug_logger p)
            f (original_excepthook_calls p).
Definition set_hook_calls (l : list (ExcType * ExcValue * option Traceback))
    (p : Process) : Process :=
  mkProcess (self p) (modules p) (_global_llm_client p) (_global_debug_logger p)
            (fs p) l.

(** ** The monad of state and exceptions *)

Definition M (A : Type) : Type := Process -> Result A * Process.

#[export] Instance M_ret : MRet M := fun A a p => (Ok a, p).
#[export] Instance M_bind : MBind M := fun A B f m p =>
  match m p with
  | (Ok a, p') => f a p'
  | (Raise e, p') => (Raise e, p')
  end.

Definition raise {A} (c : Exc.Class) (msg : string) : M A :=
  fun p => (Raise (Exc.Raised c msg), p).
Definition get : M Process := fun p => (Ok p, p).
Definition modify (f : Process -> Process) : M unit := fun p => (Ok tt, f p).

(** One [except] clause: the classes it names and its body. *)
Definition Handler (A : Type) : Type := list Exc.Class * (Exc.t -> M A).

(** The first clause, in source order, that names a base class of the
    exception's class. *)
Fixpoint select_handler {A} (e : Exc.t) (hs : list (Handler A))
    : option (Exc.t -> M A) :=
  match hs with
  | [] => None
  | (cs, h) :: hs' =>
      if existsb (Exc.issubclass (Exc.cls e)) cs then Some h
      else select_handler e hs'
  end.

(** [try: body  except C1: h1  except C2: h2 ...] *)
Definition try_except {A} (body : M A) (hs : list (Handler A)) : M A :=
  fun p =>
    match body p with
    | (Ok a, p') => (Ok a, p')
    | (Raise e, p') =>
        match select_handler e hs with
        | Some h => h e p'
        | None => (Raise e, p')
        end
    end.

Definition lift {A} (r : Result A) : M A := fun p => (r, p).

(** ** schemas.py *)

Section Schemas.
Context (h : Host).

(** The loop of [from_traceback] over [range(max(1, n - 2), n + 3)]. *)
Fixpoint collect_lines (file_path : string) (line_number : Z)
    (range : list Z) : list string :=
  match range with
  | [] => []
  | i :: rest =>
      let line := linecache_getline h file_path i in
      let lines := collect_lines file_path line_number rest in
      if String.eqb line "" then lines
      else
        let prefix := if Z.eqb i line_number then ">>> " else "    " in
        (prefix +:+ PyStr.of_Z i +:+ ": " +:+ PyStr.rstrip line) :: lines
  end.

(** [ErrorContext.from_traceback] *)
Definition from_traceback (exc_type : ExcType) (exc_value : ExcValue)
    (tb : option Traceback) : M ErrorContext :=
  match tb with
  | None =>
      mret {| exception_type := type_name exc_type;
              exception_message := str_value exc_value;
              target_fqn := "unknown";
              file_path := "unknown";
              line_number := 0;
              source_code := "";
              traceback_str :=
                type_name exc_type +:+ ": " +:+ str_value exc_value;
              local_vars := [] |}
  | Some tb =>
      let local_vars :=
        match f_locals tb with Some d => d | None => [] end in
      let file_path := co_filename tb in
      let line_number := tb_lineno tb in
      let func_name := co_name tb in
      let target_fqn :=
        if String.eqb func_name "<module>" then "unknown.module"
        else
          let module_name := default "unknown" (globals_name tb) in
          module_name +:+ "." +:+ func_name in
      source_code ←
        try_except
          (mret (PyStr.join PyStr.nl
                   (collect_lines file_path line_number
                      (seqZ (Z.max 1 (line_number - 2))
                            (line_number + 3 - Z.max 1 (line_number - 2))))))
          [([Exc.Exception], fun _ =>
              mret ("Could not retrieve source code for " +:+ file_path
                    +:+ ":" +:+ PyStr.of_Z line_number))];
      mret {| exception_type := type_name exc_type;
              exception_message := str_value exc_value;
              target_fqn := target_fqn;
              file_path := file_path;
              line_number := line_number;
              source_code := source_code;
              traceback_str := formatted tb;
              local_vars := local_vars |}
  end.

End Schemas.

(** ** llm_client.py *)

(** [float(n)] for an [int]: the nearest binary64 value, [OverflowError]
    when there is none. *)
Definition float_of_Z (z : Z) : M float :=
  let f := SF2Prim (binary_normalize prec emax z 0 false) in
  if PrimFloat.is_infinity f
  then raise Exc.OverflowError "int too large to convert to float"
  else mret f.

(** [d.get(k)] on the dict built from an object's members. *)
Fixpoint dict_get (k : string) (members : list (string * JSON)) : option JSON :=
  match members with
  | [] => None
  | (k', v) :: rest =>
      match dict_get k rest with
      | Some v' => Some v'
      | None => if String.eqb k k' then Some v else None
      end
  end.

(** [patch_data.get(k, default)]: [AttributeError] unless [patch_data] is
    a dict. *)
Definition json_get (patch_data : JSON) (k : string) (default : JSON) : M JSON :=
  match patch_data with
  | JObj members =>
      mret (match dict_get k members with Some v => v | None => default end)
  | _ => raise Exc.AttributeError "object has no attribute 'get'"
  end.

Fixpoint all_strings (l : list JSON) : option (list string) :=
  match l with
  | [] => Some []
  | JStr s :: rest =>
      match all_strings rest with
      | Some ss => Some (s :: ss)
      | None => None
      end
  | _ :: _ => None
  end.

(** Group 1 of [re.search] with [re.DOTALL] for the pattern
    "```json\s*(\{.*?\})\s*```". *)
Module FencedJson.

Definition fence : string := "```".

(** After the opening brace: the shortest run that ends in a closing
    brace followed by [\s*] and the closing fence. *)
Fixpoint lazy_body (s : string) : option string :=
  match s with
  | EmptyString => None
  | String c r =>
      if Ascii.eqb c "}"
         && PyStr.startswith fence (PyStr.drop_while PyStr.is_space r)
      then Some (String c EmptyString)
      else match lazy_body r with
           | Some g => Some (String c g)
           | None => None
           end
  end.

(** The pattern anchored at the start of [s]. *)
Definition match_at (s : string) : option string :=
  match PyStr.strip_prefix (fence +:+ "json") s with
  | Some r =>
      match PyStr.drop_while PyStr.is_space r with
      | String c r' =>
          if Ascii.eqb c "{"
          then match lazy_body r' with
               | Some g => Some (String c g)
               | None => None
               end
          else None
      | EmptyString => None
      end
  | None => None
  end.

(** The leftmost match. *)
Fixpoint search (s : string) : option string :=
  match match_at s with
  | Some g => Some g
  | None => match s with
            | String _ r => search r
            | EmptyString => None
            end
  end.

End FencedJson.

Section LLMClient.
Context (h : Host).

(** [LLMClient.__init__(api_key=None)] *)
Definition LLMClient_init (key : option string) : M LLMClient :=
  let key :=
    match key with
    | Some k => if String.eqb k "" then getenv h "OPENAI_API_KEY" else Some k
    | None => getenv h "OPENAI_API_KEY"
    end in
  match key with
  | Some k =>
      if String.eqb k ""
      then raise Exc.ValueError "OpenAI API key not found. Please set OPENAI_API_KEY environment variable or pass api_key parameter."
      else mret {| api_key := k;
                   model := default "gpt-4" (getenv h "OPENAI_MODEL") |}
  | None => raise Exc.ValueError "OpenAI API key not found. Please set OPENAI_API_KEY environment variable or pass api_key parameter."
  end.

(** [get_llm_client] *)
Definition get_llm_client : M (option LLMClient) :=
  p ← get;
  match _global_llm_client p with
  | None =>
      c ← LLMClient_init None;
      _ ← modify (set_llm_client (Some c));
      mret (Some c)
  | Some c => mret (Some c)
  end.

(** [float(x)] for a value of a parsed payload. *)
Definition py_float (x : JSON) : M float :=
  match x with
  | JFloat f => mret f
  | JInt z => float_of_Z z
  | JBool b => mret (if b then 1%float else 0%float)
  | JStr s =>
      match float_of_str h s with
      | Some f => mret f
      | None => raise Exc.ValueError "could not convert string to float"
      end
  | _ => raise Exc.TypeError "float() argument must be a string or a real number"
  end.

(** [PatchProposal(patch_code=..., explanation=..., confidence=...,
    test_cases=...)]: the model validates the declared field types. *)
Definition PatchProposal_init (patch_code explanation : JSON)
    (confidence : float) (test_cases : JSON) : M PatchProposal :=
  match patch_code, explanation, test_cases with
  | JStr pc, JStr ex, JArr l =>
      match all_strings l with
      | Some tcs =>
          mret {| patch_code := pc; explanation := ex;
                  confidence := confidence; test_cases := tcs |}
      | None => raise Exc.ValidationError "test_cases"
      end
  | _, _, _ => raise Exc.ValidationError "PatchProposal"
  end.

(** The constructor call both parse paths make on [patch_data]. *)
Definition proposal_of_patch_data (patch_data : JSON) : M PatchProposal :=
  pc ← json_get patch_data "patch_code" (JStr "");
  ex ← json_get patch_data "explanation" (JStr "");
  cf ← json_get patch_data "confidence" (JFloat 0.5);
  cf ← py_float cf;
  tcs ← json_get patch_data "test_cases" (JArr []);
  PatchProposal_init pc ex cf tcs.

Definition loads (text : string) : M JSON :=
  match json_loads h text with
  | Some v => mret v
  | None => raise Exc.JSONDecodeError "Expecting value"
  end.

(** [LLMClient.analyze_exception_and_generate_patch_with_raw] *)
Definition analyze_exception_and_generate_patch_with_raw
    (client : LLMClient) (error_context : ErrorContext)
    : M (option (PatchProposal * string)) :=
  try_except
    (content ← lift (chat_completion h error_context);
     response_text ←
       match content with
       | Some s => mret (PyStr.strip s)
       | None => raise Exc.AttributeError "'NoneType' object has no attribute 'strip'"
       end;
     try_except
       (patch_data ← loads response_text;
        proposal ← proposal_of_patch_data patch_data;
        mret (Some (proposal, response_text)))
       [([Exc.JSONDecodeError], fun _ =>
           try_except
             (match FencedJson.search response_text with
              | Some group1 =>
                  patch_data ← loads group1;
                  proposal ← proposal_of_patch_data patch_data;
                  mret (Some (proposal, response_text))
              | None => mret None
              end)
             [([Exc.JSONDecodeError; Exc.AttributeError], fun _ => mret None)])])
    [([Exc.Exception], fun _ => mret None)].

(** [LLMClient.analyze_exception_and_generate_patch] *)
Definition analyze_exception_and_generate_patch
    (client : LLMClient) (error_context : ErrorContext)
    : M (option PatchProposal) :=
  result ← analyze_exception_and_generate_patch_with_raw client error_context;
  mret (match result with Some (p, _) => Some p | None => None end).

End LLMClient.

(** ** debug_logger.py *)

(** [int / int], for operands that binary64 represents exactly. *)
Definition Z_to_float (z : Z) : float :=
  SF2Prim (binary_normalize prec emax z 0 false).

(** An [int] or a [float]. *)
Inductive PyNum :=
| NInt (z : Z)
| NFloat (f : float).

(** The dict [get_session_stats] returns. *)
Record SessionStats := {
  total_sessions : Z;
  successful_sessions : Z;
  failed_sessions : Z;
  success_rate : PyNum
}.

(** [os.path.join(a, b)] (POSIX). *)
Definition os_path_join (a b : string) : string :=
  if PyStr.startswith "/" b then b
  else if String.eqb a "" || PyStr.endswith "/" a then a +:+ b
  else a +:+ "/" +:+ b.

(** Sorting file names, last first: [files.sort(reverse=True)]. *)
Fixpoint insert_desc (x : string) (l : list string) : list string :=
  match l with
  | [] => [x]
  | y :: r => if String.leb y x then x :: l else y :: insert_desc x r
  end.

Definition sort_reverse (l : list string) : list string :=
  foldr insert_desc [] l.

Definition status_marker : string := "**Status:** SUCCESS".

Section DebugLogger.
Context (h : Host).

(** [DebugLogger.ensure_debug_dir] *)
Definition ensure_debug_dir (self : DebugLogger) : M unit :=
  p ← get;
  match fs p !! debug_dir self with
  | Some _ => mret tt
  | None =>
      if makedirs_ok h (debug_dir self)
      then modify (set_fs (<[debug_dir self := ∅]> (fs p)))
      else raise Exc.OSError "makedirs"
  end.

(** [DebugLogger.__init__(debug_dir="debug")] *)
Definition DebugLogger_init (dir : string) : M DebugLogger :=
  let self := {| debug_dir := dir |} in
  _ ← ensure_debug_dir self;
  mret self.

(** [get_debug_logger] *)
Definition get_debug_logger : M DebugLogger :=
  p ← get;
  match _global_debug_logger p with
  | None =>
      l ← DebugLogger_init "debug";
      _ ← modify (set_debug_logger (Some l));
      mret l
  | Some l => mret l
  end.

(** [DebugLogger._extract_program_name] *)
Definition _extract_program_name (file_path : string) : string :=
  if String.eqb file_path "" then "unknown"
  else
    let filename := PyStr.basename file_path in
    let program_name := PyStr.splitext_root filename in
    PyStr.replace_char "-" "_" (PyStr.replace_char " " "_" program_name).

(** [DebugLogger._format_local_vars] *)
Definition _format_local_vars (local_vars : list (string * PyValue)) : string :=
  match local_vars with
  | [] => "{}"
  | _ => match json_dumps h local_vars with
         | Some s => s
         | None => str_of_dict h local_vars
         end
  end.

(** The loop over [enumerate(test_cases, 1)]. *)
Fixpoint numbered (i : Z) (test_cases : list string) : string :=
  match test_cases with
  | [] => ""
  | t :: rest =>
      PyStr.of_Z i +:+ ". " +:+ t +:+ PyStr.nl +:+ numbered (i + 1) rest
  end.

Definition status_of (success : bool) : string :=
  if success then "SUCCESS" else "FAILED".

(** The first lines of a record: the banner and the status line. *)
Definition record_head (success : bool) : string :=
  "# ReflexRuntime Debug Session - " +:+ status_of success +:+ PyStr.nl
  +:+ PyStr.nl
  +:+ "**Status:** " +:+ status_of success +:+ "  " +:+ PyStr.nl.

(** [DebugLogger._generate_debug_markdown] *)
Definition _generate_debug_markdown (error_context : ErrorContext)
    (patch_proposal : option PatchProposal) (success : bool)
    (llm_response_raw error_message : option string) : string :=
  let nl := PyStr.nl in
  let timestamp := strftime_now h in
  let content :=
    record_head success
    +:+ "**Timestamp:** " +:+ timestamp +:+ "  " +:+ nl
    +:+ "**Program:** " +:+ _extract_program_name (file_path error_context)
        +:+ "  " +:+ nl
    +:+ "**Function:** " +:+ target_fqn error_context +:+ "  " +:+ nl
    +:+ "**File:** " +:+ file_path error_context +:+ "  " +:+ nl
    +:+ "**Line:** " +:+ PyStr.of_Z (line_number error_context) +:+ "  " +:+ nl
    +:+ nl
    +:+ "---" +:+ nl
    +:+ nl
    +:+ "## Exception Details" +:+ nl
    +:+ nl
    +:+ "**Type:** `" +:+ exception_type error_context +:+ "`  " +:+ nl
    +:+ "**Message:** `" +:+ exception_message error_context +:+ "`  " +:+ nl
    +:+ nl
    +:+ "### Full Traceback" +:+ nl
    +:+ "```" +:+ nl
    +:+ traceback_str error_context +:+ nl
    +:+ "```" +:+ nl
    +:+ nl
    +:+ "### Local Variables at Error" +:+ nl
    +:+ "```json" +:+ nl
    +:+ _format_local_vars (local_vars error_context) +:+ nl
    +:+ "```" +:+ nl
    +:+ nl
    +:+ "---" +:+ nl
    +:+ nl
    +:+ "## Original Code" +:+ nl
    +:+ nl
    +:+ "```python" +:+ nl
    +:+ source_code error_context +:+ nl
    +:+ "```" +:+ nl
    +:+ nl
    +:+ "---" +:+ nl
    +:+ nl
    +:+ "## AI Analysis" +:+ nl
    +:+ nl in
  let content :=
    match patch_proposal with
    | Some pp =>
        content
        +:+ nl
        +:+ "### AI Recommendation" +:+ nl
        +:+ "**Confidence:** " +:+ format_percent h (confidence pp)
            +:+ "  " +:+ nl
        +:+ "**Explanation:** " +:+ explanation pp +:+ nl
        +:+ nl
        +:+ "### AI-Generated Patch" +:+ nl
        +:+ "```python" +:+ nl
        +:+ patch_code pp +:+ nl
        +:+ "```" +:+ nl
        +:+ nl
        +:+ "### Test Cases Suggested" +:+ nl
        +:+ numbered 1 (test_cases pp)
    | None =>
        content +:+ nl
        +:+ "**Result:** AI could not generate a patch for this exception."
        +:+ nl
    end in
  let content :=
    match llm_response_raw with
    | Some raw =>
        if String.eqb raw "" then content
        else content
             +:+ nl
             +:+ "### Raw LLM Response" +:+ nl
             +:+ "```json" +:+ nl
             +:+ raw +:+ nl
             +:+ "```" +:+ nl
    | None => content
    end in
  let content :=
    content +:+ nl +:+ "---" +:+ nl +:+ nl +:+ "## Patch Application"
    +:+ nl +:+ nl in
  let content :=
    if success then
      content +:+ "**Patch applied successfully!**" +:+ nl +:+ nl
      +:+ "The function was hot-swapped in memory and is now handling the error case gracefully."
      +:+ nl
    else
      let content :=
        content +:+ "**Patch application failed.**" +:+ nl +:+ nl in
      let content :=
        match error_message with
        | Some m =>
            if String.eqb m "" then content
            else content +:+ "**Error:** " +:+ m +:+ nl +:+ nl
        | None => content
        end in
      content +:+ "The original function remains unchanged." +:+ nl in
  let ai_confidence :=
    match patch_proposal with
    | Some pp => format_percent h (confidence pp)
    | None => "N/A"
    end in
  let patch_status := if success then "Applied" else "Failed" in
  content
  +:+ nl
  +:+ "---" +:+ nl
  +:+ nl
  +:+ "## Session Summary" +:+ nl
  +:+ nl
  +:+ "- **Exception Type:** " +:+ exception_type error_context +:+ nl
  +:+ "- **AI Confidence:** " +:+ ai_confidence +:+ nl
  +:+ "- **Patch Status:** " +:+ patch_status +:+ nl
  +:+ "- **Function:** " +:+ target_fqn error_context +:+ nl
  +:+ nl
  +:+ "---" +:+ nl
  +:+ nl
  +:+ "*Generated by ReflexRuntime Debug Logger*" +:+ nl.

(** [open(os.path.join(dir, name), 'w').write(content)]: the directory
    must exist, hold the file directly, and accept the write. *)
Definition write_file (dir name content : string) : M unit :=
  p ← get;
  match fs p !! dir with
  | None => raise Exc.OSError "No such file or directory"
  | Some entries =>
      if PyStr.contains "/" name
      then raise Exc.OSError "No such file or directory"
      else if open_write_ok h dir name
      then modify (set_fs (<[dir := <[name := Text content]> entries]> (fs p)))
      else raise Exc.OSError "Permission denied"
  end.

(** The file name of a session record. *)
Definition session_filename (error_context : ErrorContext) : string :=
  let program_name := _extract_program_name (file_path error_context) in
  let function_name := PyStr.last_segment (target_fqn error_context) in
  let epoch := epoch_seconds h in
  program_name +:+ "_" +:+ function_name +:+ "_" +:+ PyStr.of_Z epoch +:+ ".md".

(** [DebugLogger.log_ai_session]: the path written, or [None]. *)
Definition log_ai_session (self : DebugLogger) (error_context : ErrorContext)
    (patch_proposal : option PatchProposal) (success : bool)
    (llm_response_raw error_message : option string) : M (option string) :=
  try_except
    (let filename := session_filename error_context in
     let filepath := os_path_join (debug_dir self) filename in
     let content :=
       _generate_debug_markdown error_context patch_proposal success
                                llm_response_raw error_message in
     _ ← write_file (debug_dir self) filename content;
     mret (Some filepath))
    [([Exc.Exception], fun _ => mret None)].

(** [DebugLogger.list_debug_sessions] *)
Definition list_debug_sessions (self : DebugLogger) : M (list string) :=
  p ← get;
  match fs p !! debug_dir self with
  | None => mret []
  | Some entries =>
      let files :=
        filter (fun f => PyStr.endswith ".md" f = true)
               (map_to_list entries).*1 in
      mret (sort_reverse files)
  end.

(** The loop of [get_session_stats]: a file that cannot be read is
    skipped. *)
Fixpoint count_successful (entries : gmap string File) (files : list string) : Z :=
  match files with
  | [] => 0
  | filename :: rest =>
      (match entries !! filename with
       | Some (Text content) =>
           if PyStr.contains status_marker content then 1 else 0
       | _ => 0
       end + count_successful entries rest)%Z
  end.

(** [DebugLogger.get_session_stats] *)
Definition get_session_stats (self : DebugLogger) : M SessionStats :=
  files ← list_debug_sessions self;
  p ← get;
  let entries := default ∅ (fs p !! debug_dir self) in
  let total_sessions := Z.of_nat (length files) in
  let successful_sessions := count_successful entries files in
  mret {| total_sessions := total_sessions;
          successful_sessions := successful_sessions;
          failed_sessions := (total_sessions - successful_sessions)%Z;
          success_rate :=
            if (0 <? total_sessions)%Z
            then NFloat (PrimFloat.mul
                           (PrimFloat.div (Z_to_float successful_sessions)
                                          (Z_to_float total_sessions))
                           (Z_to_float 100))
            else NInt 0 |}.

End DebugLogger.

(** ** orchestrator.py *)

(** Group 1 of [re.search] in [patch_code] for the pattern
    "def\s+(NAME)\s*\(" where NAME is "[a-zA-Z_][a-zA-Z0-9_]*". The character classes that follow one another are disjoint, so
    the greedy match at a position is the only one. *)
Module DefHeader.

(** The pattern anchored at the start of [s]. *)
Definition match_at (s : string) : option string :=
  match PyStr.strip_prefix "def" s with
  | Some r =>
      match r with
      | String c _ =>
          if PyStr.is_space c then
            let r1 := PyStr.drop_while PyStr.is_space r in
            match r1 with
            | String c1 _ =>
                if PyStr.is_ident_start c1 then
                  let name := PyStr.take_while PyStr.is_ident_char r1 in
                  let r2 := PyStr.drop_while PyStr.is_ident_char r1 in
                  match PyStr.drop_while PyStr.is_space r2 with
                  | String c3 _ =>
                      if Ascii.eqb c3 "(" then Some name else None
                  | EmptyString => None
                  end
                else None
            | EmptyString => None
            end
          else None
      | EmptyString => None
      end
  | None => None
  end.

(** The leftmost match. *)
Fixpoint search (s : string) : option string :=
  match match_at s with
  | Some name => Some name
  | None => match s with
            | String _ r => search r
            | EmptyString => None
            end
  end.

End DefHeader.

(** The [__dict__] of a loaded module; [__main__] always exists. *)
Definition namespace_of (p : Process) (module : string) : Namespace :=
  default ∅ (modules p !! module).

(** [hasattr(module, name)] *)
Definition hasattr (p : Process) (module name : string) : bool :=
  bool_decide (is_Some (namespace_of p module !! name)).

(** [getattr(module, name, None)] *)
Definition getattr (p : Process) (module name : string) : PyValue :=
  default VNone (namespace_of p module !! name).

(** [importlib.import_module(name)]: the modules that can be imported are
    the ones in [modules]; the result is the module's name. *)
Definition import_module (name : string) : M string :=
  p ← get;
  if String.eqb name "" then raise Exc.ValueError "Empty module name"
  else if PyStr.startswith "." name
  then raise Exc.TypeError "the 'package' argument is required to perform a relative import"
  else match modules p !! name with
       | Some _ => mret name
       | None => raise Exc.ModuleNotFoundError ("No module named " +:+ name)
       end.

Section Orchestrator.
Context (h : Host).

(** [SimpleOrchestrator._extract_function_name] *)
Definition _extract_function_name (patch_code : string) : option string :=
  DefHeader.search patch_code.

(** [SimpleOrchestrator._get_function_namespace]: the module to patch,
    by name, or [None]. *)
Definition _get_function_namespace (fqn : string) : M (option string) :=
  try_except
    (p ← get;
     let func_name := PyStr.last_segment fqn in
     if hasattr p "__main__" func_name then mret (Some "__main__")
     else
       let module_path := PyStr.before_last_dot fqn in
       found ←
         (if negb (String.eqb module_path "unknown") then
            try_except
              (module ← import_module module_path; mret (Some module))
              [([Exc.ImportError], fun _ => mret None)]
          else mret None);
       match found with
       | Some module => mret (Some module)
       | None => mret (Some "__main__")
       end)
    [([Exc.Exception], fun _ => mret None)].

(** [exec(patch_code, namespace.__dict__)]: the dict is updated in
    place, also when the code raises part-way. *)
Definition exec_in (module patch_code : string) : M unit :=
  fun p =>
    match py_exec h patch_code (namespace_of p module) with
    | ExecDone ns => (Ok tt, set_modules (<[module := ns]> (modules p)) p)
    | ExecRaised e ns => (Raise e, set_modules (<[module := ns]> (modules p)) p)
    end.

(** [SimpleOrchestrator._apply_llm_patch]. A handler of the inner [try]
    yields [Some b] where the source returns [b], and [None] where control
    continues after the statement. *)
Definition _apply_llm_patch (error_context : ErrorContext)
    (patch_proposal : PatchProposal) : M bool :=
  try_except
    (match _extract_function_name (patch_code patch_proposal) with
     | None => mret false
     | Some func_name =>
         namespace ← _get_function_namespace (target_fqn error_context);
         match namespace with
         | None => mret false
         | Some namespace =>
             p ← get;
             if negb (hasattr p namespace func_name) then mret false
             else
               returned ←
                 try_except
                   (_ ← exec_in namespace (patch_code patch_proposal);
                    mret None)
                   [([Exc.Exception], fun exec_error =>
                       p ← get;
                       if hasattr p namespace func_name then mret None
                       else mret (Some false));
                    ([Exc.SyntaxError], fun exec_error => mret (Some false))];
               match returned with
               | Some b => mret b
               | None =>
                   p ← get;
                   let new_func := getattr p namespace func_name in
                   if bool_decide (new_func = VNone) then mret false
                   else mret true
               end
         end
     end)
    [([Exc.Exception], fun _ => mret false)].

Definition incr_patches_applied (p : Process) : Process :=
  set_self (mkOrchestrator (_active_patches (self p))
                           (patches_applied (self p) + 1)
                           (debug (self p))) p.

(** [SimpleOrchestrator.handle] *)
Definition handle (exc_type : ExcType) (exc_value : ExcValue)
    (tb : option Traceback) : M PyRet :=
  try_except
    (ctx ← from_traceback h exc_type exc_value tb;
     llm_client ← get_llm_client h;
     match llm_client with
     | None =>
         (* error_message, success, patch_proposal and llm_response_raw
            are assigned and the function body ends *)
         mret RNone
     | Some llm_client =>
         try_except
           (response_data ←
              analyze_exception_and_generate_patch_with_raw h llm_client ctx;
            let patch_proposal :=
              match response_data with
              | Some (pp, _) => Some pp
              | None => None
              end in
            let llm_response_raw :=
              match response_data with
              | Some (_, raw) => raw
              | None => "No response from LLM"
              end in
            outcome ←
              match patch_proposal with
              | None => mret (false, Some "LLM could not generate a patch")
              | Some pp =>
                  success ← _apply_llm_patch ctx pp;
                  if success : bool then
                    _ ← modify incr_patches_applied;
                    mret (true, None)
                  else mret (false, Some "Patch application failed")
              end;
            let success : bool := outcome.1 in
            let error_message : option string := outcome.2 in
            debug_logger ← get_debug_logger h;
            _ ← log_ai_session h debug_logger ctx patch_proposal success
                               (Some llm_response_raw) error_message;
            mret (ret_of_bool success))
           [([Exc.Exception], fun llm_error =>
               let error_message :=
                 "LLM integration error: " +:+ Exc.msg llm_error in
               _ ← try_except
                     (debug_logger ← get_debug_logger h;
                      _ ← log_ai_session h debug_logger ctx None false
                                         None (Some error_message);
                      mret tt)
                     [([Exc.Exception], fun _ => mret tt)];
               mret RFalse)]
     end)
    [([Exc.Exception], fun _ => mret RFalse)].

(** The hook [install_hook] puts in [sys.excepthook]; a call to the hook
    that was installed before is recorded in the process state. *)
Definition original_excepthook (exc_type : ExcType) (exc_value : ExcValue)
    (tb : option Traceback) : M unit :=
  modify (fun p =>
    set_hook_calls (original_excepthook_calls p ++ [(exc_type, exc_value, tb)]) p).

Definition reflex_excepthook (exc_type : ExcType) (exc_value : ExcValue)
    (tb : option Traceback) : M unit :=
  handled ← handle exc_type exc_value tb;
  if truthy handled then mret tt
  else original_excepthook exc_type exc_value tb.

End Orchestrator.

(** ** A sample host and process

    The first demonstration program: [divide_numbers] of
    demo1_division_calculator.py fails with [ZeroDivisionError]. The sample
    interpreter knows the patches below and nothing else; the sample JSON
    parser knows the payloads below and nothing else. *)

Module Sample.

Import PyStr.

Definition dq : string := String (Ascii.ascii_of_nat 34) EmptyString.
Definition quoted (s : string) : string := dq +:+ s +:+ dq.

Definition original_source : string :=
  "def divide_numbers(a: float, b: float) -> float:" +:+ nl
  +:+ "    return a / b".

(** A patch that guards the division. *)
Definition good_patch : string :=
  "def divide_numbers(a, b):" +:+ nl
  +:+ "    if b == 0:" +:+ nl
  +:+ "        return None" +:+ nl
  +:+ "    return a / b".

(** Not Python: the parameter list is never closed. *)
Definition bad_syntax_patch : string :=
  "def divide_numbers(a, b:" +:+ nl
  +:+ "    return None".

(** Valid Python that ends by rebinding the name to an integer. *)
Definition rebinding_patch : string :=
  "def divide_numbers(a, b):" +:+ nl
  +:+ "    return None" +:+ nl
  +:+ "divide_numbers = 42".

(** [exec] on the three patches. [exec] compiles the whole text first,
    so the text that is not Python raises [SyntaxError] before any
    statement runs. *)
Definition sample_exec (code : string) (ns : Namespace) : ExecOutcome :=
  if String.eqb code good_patch
  then ExecDone (<["divide_numbers" := VFunction good_patch]> ns)
  else if String.eqb code rebinding_patch
  then ExecDone (<["divide_numbers" := VInt 42]> ns)
  else ExecRaised (Exc.Raised Exc.SyntaxError "'(' was never closed") ns.

(** The JSON text of a payload with the given [patch_code] literal and,
    optionally, a [confidence] literal: the members between the braces,
    and the object. *)
Definition payload_body (code_literal : string) (confidence : option string)
    : string :=
  quoted "patch_code" +:+ ": " +:+ quoted code_literal
  +:+ ", " +:+ quoted "explanation" +:+ ": "
  +:+ quoted "Return None when the divisor is zero"
  +:+ match confidence with
      | Some c => ", " +:+ quoted "confidence" +:+ ": " +:+ c
      | None => ""
      end
  +:+ ", " +:+ quoted "test_cases" +:+ ": [" +:+ quoted "divide by zero"
  +:+ ", " +:+ quoted "divide by two" +:+ "]".

Definition payload_text (code_literal : string) (confidence : option string)
    : string :=
  "{" +:+ payload_body code_literal confidence +:+ "}".

Definition good_literal : string :=
  "def divide_numbers(a, b):\n    if b == 0:\n        return None\n    return a / b".
Definition bad_syntax_literal : string :=
  "def divide_numbers(a, b:\n    return None".

Definition members (code : string) (confidence : option JSON)
    : list (string * JSON) :=
  [("patch_code", JStr code);
   ("explanation", JStr "Return None when the divisor is zero")]
  ++ match confidence with
     | Some c => [("confidence", c)]
     | None => []
     end
  ++ [("test_cases", JArr [JStr "divide by zero"; JStr "divide by two"])].

(** A complete payload, one without [confidence], one whose confidence
    is [null], and one whose patch is not Python. *)
Definition good_payload : string := payload_text good_literal (Some "0.9").
Definition payload_without_confidence : string := payload_text good_literal None.
Definition payload_null_confidence : string :=
  payload_text good_literal (Some "null").
Definition payload_bad_syntax : string :=
  payload_text bad_syntax_literal (Some "0.9").

Definition sample_loads (text : string) : option JSON :=
  if String.eqb text good_payload
  then Some (JObj (members good_patch (Some (JFloat 0.9))))
  else if String.eqb text payload_without_confidence
  then Some (JObj (members good_patch None))
  else if String.eqb text payload_null_confidence
  then Some (JObj (members good_patch (Some JNull)))
  else if String.eqb text payload_bad_syntax
  then Some (JObj (members bad_syntax_patch (Some (JFloat 0.9))))
  else None.

(** A reply that wraps a payload in a fenced block. *)
Definition fenced (payload : string) : string :=
  "```json" +:+ nl +:+ payload +:+ nl +:+ "```".

(** The host: the reply of the model service, whether an API key is
    set, whether the log directory can be created and written. *)
Definition host (reply : Result (option string)) (key : option string)
    (can_mkdir can_write : bool) : Host :=
  {| getenv := fun name =>
       if String.eqb name "OPENAI_API_KEY" then key else None;
     chat_completion := fun _ => reply;
     json_loads := sample_loads;
     float_of_str := fun _ => None;
     format_percent := fun _ => "90.0%";
     json_dumps := fun _ => Some "{}";
     str_of_dict := fun _ => "{}";
     py_exec := sample_exec;
     epoch_seconds := 1700000000;
     strftime_now := "2023-11-14 22:13:20";
     linecache_getline := fun path i =>
       if String.eqb path "demo1_division_calculator.py" && Z.eqb i 22
       then "    return a / b" +:+ nl else "";
     makedirs_ok := fun _ => can_mkdir;
     open_write_ok := fun _ _ => can_write |}.

Definition exc_type : ExcType := {| type_name := "ZeroDivisionError" |}.
Definition exc_value : ExcValue := {| str_value := "float division by zero" |}.
Definition tb : Traceback :=
  {| tb_lineno := 22;
     co_filename := "demo1_division_calculator.py";
     co_name := "divide_numbers";
     globals_name := Some "__main__";
     f_locals := Some [("a", VObject "4.0"); ("b", VObject "0.0")];
     formatted := "ZeroDivisionError: float division by zero" |}.

Definition main_namespace : Namespace :=
  {["divide_numbers" := VFunction original_source]}.

(** A fresh process; [dirs] are the directories that exist. *)
Definition process (dirs : gmap string (gmap string File)) : Process :=
  {| self := SimpleOrchestrator_init;
     modules := {["__main__" := main_namespace]};
     _global_llm_client := None;
     _global_debug_logger := None;
     fs := dirs;
     original_excepthook_calls := [] |}.

Definition fresh : Process := process ∅.
Definition with_log_dir : Process := process {["debug" := ∅]}.

(** Hosts: one where everything works, and ones where the reply is
    fenced, lacks [confidence], has a [null] confidence, is not JSON, where
    the request fails, where no API key is set, where the log directory
    cannot be created, and where the session file cannot be written. *)
Definition key : option string := Some "sk-test".
Definition healthy_host : Host := host (Ok (Some good_payload)) key true true.
Definition fenced_host : Host :=
  host (Ok (Some (fenced good_payload))) key true true.
Definition no_confidence_host : Host :=
  host (Ok (Some payload_without_confidence)) key true true.
Definition malformed_host : Host :=
  host (Ok (Some "I could not find a fix for this error.")) key true true.
Definition no_mkdir_host : Host := host (Ok (Some good_payload)) key false true.

Definition client : LLMClient := {| api_key := "sk-test"; model := "gpt-4" |}.

Definition context : ErrorContext :=
  {| exception_type := "ZeroDivisionError";
     exception_message := "float division by zero";
     traceback_str := "ZeroDivisionError: float division by zero";
     target_fqn := "__main__.divide_numbers";
     source_code := ">>> 22:     return a / b";
     file_path := "demo1_division_calculator.py";
     line_number := 22;
     local_vars := [("a", VObject "4.0"); ("b", VObject "0.0")] |}.

Definition proposal_with (c : float) (code : string) : PatchProposal :=
  {| patch_code := code;
     explanation := "Return None when the divisor is zero";
     confidence := c;
     test_cases := ["divide by zero"; "divide by two"] |}.

Definition proposal (code : string) : PatchProposal := proposal_with 0.9 code.

(** A log directory with two successful sessions and a failed one. *)
Definition three_records : gmap string File :=
  {[ "demo1_divide_1700000001.md" :=
       Text ("# ReflexRuntime Debug Session - SUCCESS" +:+ nl +:+ nl
             +:+ "**Status:** SUCCESS  " +:+ nl);
     "demo1_divide_1700000002.md" :=
       Text ("# ReflexRuntime Debug Session - FAILED" +:+ nl +:+ nl
             +:+ "**Status:** FAILED  " +:+ nl);
     "demo2_get_1700000003.md" :=
       Text ("# ReflexRuntime Debug Session - SUCCESS" +:+ nl +:+ nl
             +:+ "**Status:** SUCCESS  " +:+ nl) ]}.

End Sample.

(** * The vocabulary of the properties *)

(** [frames R m]: whatever [m] does to the process, raising or not, the
    states before and after are related by [R]. *)
Definition frames {A} (R : relation Process) (m : M A) : Prop :=
  forall p r p', m p = (r, p') -> R p p'.

(** A computation that never changes the state. *)
Abbreviation stateless m := (frames eq m).

(** [agree f]: the states before and after have the same [f]. *)
Definition agree {X} (f : Process -> X) : relation Process :=
  fun p p' => f p' = f p.

(** The directory a logger obtained in state [p] writes to. *)
Definition logger_dir (p : Process) : string :=
  match _global_debug_logger p with
  | Some l => debug_dir l
  | None => "debug"
  end.

(** The analysis result put to use: no proposal, a proposal applied, or a
    proposal the applier rejected; with the values of [success] and
    [error_message] and the state the step leaves. *)
Inductive Attempt (h : Host) (ctx : ErrorContext) (p1 : Process)
  : option (PatchProposal * string) -> bool -> option string -> Process -> Prop :=
| attempt_no_proposal :
    Attempt h ctx p1 None false (Some "LLM could not generate a patch") p1
| attempt_applied pp raw p2 :
    _apply_llm_patch h ctx pp p1 = (Ok true, p2) ->
    Attempt h ctx p1 (Some (pp, raw)) true None (incr_patches_applied p2)
| attempt_rejected pp raw p2 :
    _apply_llm_patch h ctx pp p1 = (Ok false, p2) ->
    Attempt h ctx p1 (Some (pp, raw)) false (Some "Patch application failed") p2.

Definition proposal_of (rd : option (PatchProposal * string)) : option PatchProposal :=
  match rd with Some (pp, _) => Some pp | None => None end.

Definition raw_of (rd : option (PatchProposal * string)) : string :=
  match rd with Some (_, raw) => raw | None => "No response from LLM" end.

(** One run of [handle] from state [p]: its result and final state. *)
Inductive HandlePath (h : Host) (et : ExcType) (ev : ExcValue)
    (tb : option Traceback) (p : Process) : PyRet -> Process -> Prop :=
| path_client_fault ctx e :
    from_traceback h et ev tb p = (Ok ctx, p) ->
    get_llm_client h p = (Raise e, p) ->
    HandlePath h et ev tb p RFalse p
| path_logged ctx c p1 rd success msg p3 l p4 w p5 :
    from_traceback h et ev tb p = (Ok ctx, p) ->
    get_llm_client h p = (Ok (Some c), p1) ->
    analyze_exception_and_generate_patch_with_raw h c ctx p1 = (Ok rd, p1) ->
    Attempt h ctx p1 rd success msg p3 ->
    get_debug_logger h p3 = (Ok l, p4) ->
    log_ai_session h l ctx (proposal_of rd) success (Some (raw_of rd)) msg p4
      = (Ok w, p5) ->
    HandlePath h et ev tb p (ret_of_bool success) p5
| path_logger_fault ctx c p1 rd success msg p3 e :
    from_traceback h et ev tb p = (Ok ctx, p) ->
    get_llm_client h p = (Ok (Some c), p1) ->
    analyze_exception_and_generate_patch_with_raw h c ctx p1 = (Ok rd, p1) ->
    Attempt h ctx p1 rd success msg p3 ->
    get_debug_logger h p3 = (Raise e, p3) ->
    HandlePath h et ev tb p RFalse p3.

(** The logger can be obtained: it exists, or its directory exists or
    can be created. *)
Definition logger_obtainable (h : Host) (p : Process) : Prop :=
  is_Some (_global_debug_logger p) \/ is_Some (fs p !! "debug")
  \/ makedirs_ok h "debug" = true.


(** [s] begins with the text [a]. *)
Definition begins_with (a s : string) : Prop := exists rest, s = a +:+ rest.


(** The payload the generator builds the proposal from: the reply when
    it parses, else group 1 of the fenced block. *)
Definition parsed_payload (h : Host) (response_text : string) : option JSON :=
  match json_loads h response_text with
  | Some v => Some v
  | None =>
      match FencedJson.search response_text with
      | Some group1 => json_loads h group1
      | None => None
      end
  end.



(** The result of the constructor call, as the generator uses it: the
    proposal with the reply text, or no proposal when the call raised. *)
Definition proposal_or_none (h : Host) (payload : JSON) (response_text : string)
    (p : Process) : option (PatchProposal * string) :=
  match proposal_of_patch_data h payload p with
  | (Ok proposal, _) => Some (proposal, response_text)
  | (Raise _, _) => None
  end.

(** [d.get(k, default)] on the members of an object. *)
Definition member_or (members : list (string * JSON)) (k : string)
    (default : JSON) : JSON :=
  match dict_get k members with Some v => v | None => default end.

(** The session files of a directory: the names that end in [.md]. *)
Definition session_files (entries : gmap string File) : list string :=
  filter (fun f => PyStr.endswith ".md" f = true) (map_to_list entries).*1.

(** ** Vocabulary of the further properties *)

(** A name the pattern can capture: a letter or underscore, then
    letters, digits and underscores. *)
Definition is_identifier (name : string) : bool :=
  match name with
  | String c _ => PyStr.is_ident_start c && PyStr.all_chars PyStr.is_ident_char name
  | EmptyString => false
  end.

(** A text without a dot. *)
Definition no_dot (s : string) : bool :=
  PyStr.all_chars (fun c => negb (Ascii.eqb c ".")) s.


(** Names in descending order. *)
Definition descending (l : list string) : Prop :=
  Sorted (fun a b => String.leb b a = true) l.

(** The value of [sys.excepthook]: the handler that was there at first,
    or a [reflex_excepthook] closure over the handler it replaced. *)
Inductive Hook :=
| OriginalHook
| ReflexHook (replaced : Hook).

(** [SimpleOrchestrator.install_hook]: the new value of [sys.excepthook],
    given the current one. *)
Definition install_hook (sys_excepthook : Hook) : Hook :=
  ReflexHook sys_excepthook.

(** Calling [sys.excepthook]. *)
Fixpoint call_hook (h : Host) (hook : Hook) (exc_type : ExcType)
    (exc_value : ExcValue) (tb : option Traceback) : M unit :=
  match hook with
  | OriginalHook => original_excepthook exc_type exc_value tb
  | ReflexHook replaced =>
      handled ← handle h exc_type exc_value tb;
      if truthy handled then mret tt
      else call_hook h replaced exc_type exc_value tb
  end.

(** A host whose JSON parser reads the reply as an empty list. *)
Definition list_reply_host : Host :=
  {| getenv := getenv Sample.healthy_host;
     chat_completion := fun _ => Ok (Some "[]");
     json_loads := fun text => if String.eqb text "[]" then Some (JArr []) else None;
     float_of_str := float_of_str Sample.healthy_host;
     format_percent := format_percent Sample.healthy_host;
     json_dumps := json_dumps Sample.healthy_host;
     str_of_dict := str_of_dict Sample.healthy_host;
     py_exec := py_exec Sample.healthy_host;
     epoch_seconds := epoch_seconds Sample.healthy_host;
     strftime_now := strftime_now Sample.healthy_host;
     linecache_getline := linecache_getline Sample.healthy_host;
     makedirs_ok := makedirs_ok Sample.healthy_host;
     open_write_ok := open_write_ok Sample.healthy_host |}.

(** A character that may occur in a program name: not a path separator,
    a space or a dash. *)
Definition name_char (c : ascii) : bool :=
  negb (Ascii.eqb c "/") && negb (Ascii.eqb c " ") && negb (Ascii.eqb c "-").

(** * Properties *)

(** ** Running the monad *)

Section MonadLemmas.
Context {A B : Type}.

Lemma run_bind_ok (m : M A) (f : A -> M B) p a p' :
  m p = (Ok a, p') -> (m ≫= f) p = f a p'.
Proof. intros E. unfold mbind, M_bind. now rewrite E. Qed.

Lemma run_bind_raise (m : M A) (f : A -> M B) p e p' :
  m p = (Raise e, p') -> (m ≫= f) p = (Raise e, p').
Proof. intros E. unfold mbind, M_bind. now rewrite E. Qed.

Lemma run_try_ok (m : M A) hs p a p' :
  m p = (Ok a, p') -> try_except m hs p = (Ok a, p').
Proof. intros E. unfold try_except. now rewrite E. Qed.

Lemma run_try_raise (m : M A) hs p e p' :
  m p = (Raise e, p') ->
  try_except m hs p =
    match select_handler e hs with
    | Some k => k e p'
    | None => (Raise e, p')
    end.
Proof. intros E. unfold try_except. now rewrite E. Qed.

End MonadLemmas.

(** Every modelled class derives from [Exception], so a clause
    [except Exception] catches whatever is raised. *)
Lemma issubclass_Exception c : Exc.issubclass c Exc.Exception = true.
Proof. destruct c; reflexivity. Qed.

Lemma select_Exception_first {A} e (k : Exc.t -> M A) hs :
  select_handler e (([Exc.Exception], k) :: hs) = Some k.
Proof. simpl. now rewrite issubclass_Exception. Qed.

(** A body guarded by one [except Exception] clause whose handler does not
    raise does not raise. *)
Lemma try_Exception_total {A} (m : M A) (k : Exc.t -> M A) p :
  (forall e q, exists a q', k e q = (Ok a, q')) ->
  exists a p', try_except m [([Exc.Exception], k)] p = (Ok a, p').
Proof.
  intros Hk. unfold try_except.
  destruct (m p) as [[a | e] p'] eqn:E.
  - eauto.
  - rewrite select_Exception_first. apply Hk.
Qed.

(** ** Capture (schemas.py) *)

Lemma from_traceback_state h et ev tb p :
  exists ctx, from_traceback h et ev tb p = (Ok ctx, p).
Proof.
  destruct tb as [tb |]; simpl.
  - eexists. reflexivity.
  - eexists. reflexivity.
Qed.


(** ** Frame conditions *)

Section Frames.
Context (R : relation Process) `{!PreOrder R}.

Lemma frames_ret {A} (a : A) : frames R (mret a).
Proof. intros p r p' E. injection E as _ <-. reflexivity. Qed.

Lemma frames_raise {A} c s : frames R (@raise A c s).
Proof. intros p r p' E. injection E as _ <-. reflexivity. Qed.

Lemma frames_lift {A} (x : Result A) : frames R (lift x).
Proof. intros p r p' E. injection E as _ <-. reflexivity. Qed.

Lemma frames_get : frames R get.
Proof. intros p r p' E. injection E as _ <-. reflexivity. Qed.

Lemma frames_modify f : (forall p, R p (f p)) -> frames R (modify f).
Proof. intros Hf p r p' E. injection E as _ <-. apply Hf. Qed.

Lemma frames_bind {A B} (m : M A) (f : A -> M B) :
  frames R m -> (forall a, frames R (f a)) -> frames R (m ≫= f).
Proof.
  intros Hm Hf p r p' E. unfold mbind, M_bind in E.
  destruct (m p) as [[a | e] q] eqn:Em.
  - transitivity q; [eapply Hm, Em | eapply Hf, E].
  - injection E as _ <-. eapply Hm, Em.
Qed.

Lemma frames_try {A} (m : M A) hs :
  frames R m -> Forall (fun h => forall e, frames R (h.2 e)) hs ->
  frames R (try_except m hs).
Proof.
  intros Hm Hhs p r p' E. unfold try_except in E.
  destruct (m p) as [[a | e] q] eqn:Em.
  - injection E as _ <-. eapply Hm, Em.
  - destruct (select_handler e hs) as [k |] eqn:Ek.
    + transitivity q; [eapply Hm, Em |].
      assert (Hk : forall e', frames R (k e')).
      { clear -Hhs Ek. induction Hhs as [| [cs k'] hs' Hk' _ IH]; simpl in Ek.
        - discriminate.
        - destruct (existsb _ cs); [injection Ek as <-; exact Hk' | auto]. }
      eapply Hk, E.
    + injection E as _ <-. eapply Hm, Em.
Qed.

End Frames.

Ltac frames_class :=
  try match goal with |- PreOrder _ => typeclasses eauto end.

Ltac frames_step :=
  first
    [ apply frames_ret; frames_class
    | apply frames_raise; frames_class
    | apply frames_lift; frames_class
    | apply frames_get; frames_class
    | apply frames_bind; frames_class; [| intros ?]
    | apply frames_try; frames_class;
      [| repeat (apply Forall_cons_2; [intros ?; simpl |]);
         try apply Forall_nil_2 ] ].

Lemma json_get_stateless d k x : stateless (json_get d k x).
Proof. destruct d; simpl; frames_step. Qed.

Lemma float_of_Z_stateless z : stateless (float_of_Z z).
Proof. unfold float_of_Z. destruct (is_infinity _); frames_step. Qed.

Lemma py_float_stateless h x : stateless (py_float h x).
Proof.
  destruct x; simpl; try frames_step.
  - apply float_of_Z_stateless.
  - destruct (float_of_str h s); frames_step.
Qed.

Lemma PatchProposal_init_stateless pc ex cf tcs :
  stateless (PatchProposal_init pc ex cf tcs).
Proof.
  unfold PatchProposal_init.
  destruct pc, ex, tcs; try frames_step.
  destruct (all_strings l); frames_step.
Qed.

Lemma proposal_of_patch_data_stateless h d :
  stateless (proposal_of_patch_data h d).
Proof.
  unfold proposal_of_patch_data.
  repeat (frames_step; [apply json_get_stateless || apply py_float_stateless |]).
  apply PatchProposal_init_stateless.
Qed.

Lemma loads_stateless h s : stateless (loads h s).
Proof. unfold loads. destruct (json_loads h s); frames_step. Qed.

Lemma analyze_stateless h c ctx :
  stateless (analyze_exception_and_generate_patch_with_raw h c ctx).
Proof.
  unfold analyze_exception_and_generate_patch_with_raw.
  frames_step; [| frames_step].
  frames_step; [frames_step |].
  frames_step; [destruct a; frames_step |].
  frames_step.
  - frames_step; [apply loads_stateless |].
    frames_step; [apply proposal_of_patch_data_stateless | frames_step].
  - frames_step; [| frames_step].
    destruct (FencedJson.search a0); [| frames_step].
    frames_step; [apply loads_stateless |].
    frames_step; [apply proposal_of_patch_data_stateless | frames_step].
Qed.

(** The generator returns; it never raises and never changes the state. *)
Lemma analyze_returns h c ctx p :
  exists rd,
    analyze_exception_and_generate_patch_with_raw h c ctx p = (Ok rd, p).
Proof.
  destruct (try_Exception_total
              (content ← lift (chat_completion h ctx);
               response_text ←
                 match content with
                 | Some s => mret (PyStr.strip s)
                 | None => raise Exc.AttributeError "'NoneType' object has no attribute 'strip'"
                 end;
               try_except
                 (patch_data ← loads h response_text;
                  proposal ← proposal_of_patch_data h patch_data;
                  mret (Some (proposal, response_text)))
                 [([Exc.JSONDecodeError], fun _ =>
                     try_except
                       (match FencedJson.search response_text with
                        | Some group1 =>
                            patch_data ← loads h group1;
                            proposal ← proposal_of_patch_data h patch_data;
                            mret (Some (proposal, response_text))
                        | None => mret None
                        end)
                       [([Exc.JSONDecodeError; Exc.AttributeError],
                         fun _ => mret None)])])
              (fun _ => mret None) p) as (rd & p' & E).
  { intros e q. eexists _, _. reflexivity. }
  exists rd. pose proof (analyze_stateless h c ctx p _ _ E) as ->. exact E.
Qed.

#[export] Instance agree_preorder {X} (f : Process -> X) : PreOrder (agree f).
Proof.
  split.
  - intros p. reflexivity.
  - intros p q r Hpq Hqr. unfold agree in *. congruence.
Qed.

Lemma stateless_frames {A} (R : relation Process) `{!PreOrder R} (m : M A) :
  stateless m -> frames R m.
Proof. intros Hm p r p' E. rewrite (Hm _ _ _ E). reflexivity. Qed.

(** ** The patch applier *)

Lemma import_module_stateless name : stateless (import_module name).
Proof.
  unfold import_module. frames_step; [frames_step |].
  destruct (String.eqb name ""); [frames_step |].
  destruct (PyStr.startswith "." name); [frames_step |].
  destruct (modules a !! name); frames_step.
Qed.

Lemma _get_function_namespace_stateless fqn :
  stateless (_get_function_namespace fqn).
Proof.
  unfold _get_function_namespace.
  frames_step; [| frames_step].
  frames_step; [frames_step |].
  destruct (hasattr a "__main__" _); [frames_step |].
  frames_step.
  - destruct (negb _); [| frames_step].
    frames_step; [| frames_step].
    frames_step; [apply import_module_stateless | frames_step].
  - destruct a0; frames_step.
Qed.


Section ApplyFrame.
Context (h : Host) {X : Type} (f : Process -> X).
Hypothesis f_modules : forall m p, f (set_modules m p) = f p.

Lemma exec_in_frames module code : frames (agree f) (exec_in h module code).
Proof.
  intros p r p' E. unfold exec_in in E.
  destruct (py_exec h code _); injection E as _ <-; apply f_modules.
Qed.

Lemma _apply_llm_patch_frames ctx pp :
  frames (agree f) (_apply_llm_patch h ctx pp).
Proof.
  unfold _apply_llm_patch.
  frames_step; [| frames_step].
  destruct (_extract_function_name _) as [func_name |]; [| frames_step].
  frames_step;
    [apply stateless_frames; [typeclasses eauto |];
     apply _get_function_namespace_stateless |].
  destruct a as [namespace |]; [| frames_step].
  frames_step; [frames_step |].
  destruct (negb _); [frames_step |].
  frames_step.
  - frames_step.
    + frames_step; [apply exec_in_frames | frames_step].
    + frames_step; [frames_step |].
      destruct (hasattr _ _ _); frames_step.
    + frames_step.
  - destruct a0; [frames_step |].
    frames_step; [frames_step |].
    destruct (bool_decide _); frames_step.
Qed.

End ApplyFrame.

(** The applier returns; it never raises. *)
Lemma _apply_llm_patch_returns h ctx pp p :
  exists b p', _apply_llm_patch h ctx pp p = (Ok b, p').
Proof.
  unfold _apply_llm_patch. apply try_Exception_total.
  intros e q. eexists _, _. reflexivity.
Qed.

(** ** The singletons and the session logger *)

Lemma set_llm_client_same p c :
  _global_llm_client p = Some c -> set_llm_client (Some c) p = p.
Proof. destruct p; simpl; intros ->; reflexivity. Qed.

(** [get_llm_client] raises and leaves the state as it is, or returns a
    client (never [None]) that is then the module-level instance. *)
Lemma get_llm_client_cases h p :
  (exists e, get_llm_client h p = (Raise e, p))
  \/ (exists c, get_llm_client h p = (Ok (Some c), set_llm_client (Some c) p)).
Proof.
  unfold get_llm_client, mbind, M_bind, get; simpl.
  destruct (_global_llm_client p) as [c |] eqn:Eg.
  - right. exists c. now rewrite set_llm_client_same.
  - unfold LLMClient_init.
    destruct (getenv h "OPENAI_API_KEY") as [k |]; simpl.
    + destruct (String.eqb k ""); simpl; eauto.
    + eauto.
Qed.

(** Without a cached client and without an API key, [get_llm_client]
    raises [ValueError]. *)
Lemma get_llm_client_no_key h p :
  _global_llm_client p = None -> getenv h "OPENAI_API_KEY" = None ->
  exists e, get_llm_client h p = (Raise e, p) /\ Exc.cls e = Exc.ValueError.
Proof.
  intros Eg Ek. unfold get_llm_client, mbind, M_bind, get; simpl.
  rewrite Eg. unfold LLMClient_init. rewrite Ek. simpl. eauto.
Qed.

Lemma get_debug_logger_raise_state h p e p' :
  get_debug_logger h p = (Raise e, p') -> p' = p.
Proof.
  unfold get_debug_logger, mbind, M_bind, get; simpl.
  destruct (_global_debug_logger p); [discriminate |].
  unfold DebugLogger_init, ensure_debug_dir, mbind, M_bind, get; simpl.
  destruct (fs p !! "debug"); simpl; [discriminate |].
  destruct (makedirs_ok h "debug"); simpl; [discriminate |].
  unfold raise. congruence.
Qed.

(** The logger is obtained when it exists already, or when its directory
    exists or can be created. *)
Lemma get_debug_logger_ok h p :
  (is_Some (_global_debug_logger p) \/ is_Some (fs p !! "debug")
   \/ makedirs_ok h "debug" = true) ->
  exists l p', get_debug_logger h p = (Ok l, p')
    /\ debug_dir l = logger_dir p
    /\ fs p' = match fs p !! logger_dir p with
               | Some _ => fs p
               | None => match _global_debug_logger p with
                         | Some _ => fs p
                         | None => <[logger_dir p := ∅]> (fs p)
                         end
               end
    /\ self p' = self p /\ modules p' = modules p
    /\ original_excepthook_calls p' = original_excepthook_calls p.
Proof.
  intros H. unfold get_debug_logger, logger_dir, mbind, M_bind, get; simpl.
  destruct (_global_debug_logger p) as [l |] eqn:El.
  - exists l, p. repeat split. now destruct (fs p !! debug_dir l).
  - unfold DebugLogger_init, ensure_debug_dir, mbind, M_bind, get; simpl.
    destruct (fs p !! "debug") as [d |] eqn:Ed; simpl.
    + eexists _, _. repeat split.
    + destruct (makedirs_ok h "debug") eqn:Em; simpl.
      * eexists _, _. repeat split.
      * destruct H as [[? ?] | [[? ?] | ?]]; discriminate.
Qed.

(** When the directory is missing and cannot be created, the first call
    of [get_debug_logger] raises [OSError]. *)
Lemma get_debug_logger_fault h p :
  _global_debug_logger p = None -> fs p !! "debug" = None ->
  makedirs_ok h "debug" = false ->
  exists e, get_debug_logger h p = (Raise e, p).
Proof.
  intros El Ed Em. unfold get_debug_logger, mbind, M_bind, get; simpl.
  rewrite El. unfold DebugLogger_init, ensure_debug_dir, mbind, M_bind, get; simpl.
  rewrite Ed, Em. simpl. eauto.
Qed.

(** [log_ai_session] never raises: it writes one file and returns its
    path, or changes nothing and returns [None]. *)
Lemma log_ai_session_cases h l ctx pp success raw msg p :
  log_ai_session h l ctx pp success raw msg p = (Ok None, p)
  \/ (exists entries,
        fs p !! debug_dir l = Some entries
        /\ PyStr.contains "/" (session_filename h ctx) = false
        /\ open_write_ok h (debug_dir l) (session_filename h ctx) = true
        /\ log_ai_session h l ctx pp success raw msg p =
             (Ok (Some (os_path_join (debug_dir l) (session_filename h ctx))),
              set_fs (<[debug_dir l :=
                          <[session_filename h ctx :=
                              Text (_generate_debug_markdown h ctx pp success raw msg)]>
                            entries]> (fs p)) p)).
Proof.
  unfold log_ai_session, try_except, write_file, mbind, M_bind, get; simpl.
  destruct (fs p !! debug_dir l) as [entries |]; simpl; [| now left].
  destruct (PyStr.contains "/" _); simpl; [now left |].
  destruct (open_write_ok h _ _); simpl; [| now left].
  right. exists entries. repeat split.
Qed.

Section SingletonFrames.
Context (h : Host) {X : Type} (f : Process -> X).

Lemma get_llm_client_frames :
  (forall c p, f (set_llm_client c p) = f p) ->
  frames (agree f) (get_llm_client h).
Proof.
  intros Hf p r p' E.
  destruct (get_llm_client_cases h p) as [[e E'] | [c E']];
    rewrite E' in E; injection E as _ <-; [reflexivity | apply Hf].
Qed.

Lemma get_debug_logger_frames :
  (forall l p, f (set_debug_logger l p) = f p) ->
  (forall d p, f (set_fs d p) = f p) ->
  frames (agree f) (get_debug_logger h).
Proof.
  intros Hl Hd. unfold get_debug_logger.
  frames_step; [frames_step |].
  destruct (_global_debug_logger a); [| frames_step]; [frames_step | |].
  - unfold DebugLogger_init. frames_step; [| frames_step].
    unfold ensure_debug_dir. frames_step; [frames_step |].
    destruct (fs a0 !! _); [frames_step |].
    destruct (makedirs_ok h _); [| frames_step].
    apply frames_modify. intros q. apply Hd.
  - frames_step; [| frames_step].
    apply frames_modify. intros q. apply Hl.
Qed.

Lemma log_ai_session_frames l ctx pp success raw msg :
  (forall d p, f (set_fs d p) = f p) ->
  frames (agree f) (log_ai_session h l ctx pp success raw msg).
Proof.
  intros Hd p r p' E.
  destruct (log_ai_session_cases h l ctx pp success raw msg p)
    as [E' | (entries & _ & _ & _ & E')];
    rewrite E' in E; injection E as _ <-; [reflexivity | apply Hd].
Qed.

End SingletonFrames.

(** ** The paths through [handle] *)

Lemma attempt_exists h ctx p1 rd :
  exists success msg p3, Attempt h ctx p1 rd success msg p3.
Proof.
  destruct rd as [[pp raw] |].
  - destruct (_apply_llm_patch_returns h ctx pp p1) as ([|] & p2 & E).
    + eexists _, _, _. eapply attempt_applied, E.
    + eexists _, _, _. eapply attempt_rejected, E.
  - eexists _, _, _. apply attempt_no_proposal.
Qed.

(** The statements of [handle] between the generator call and the logger,
    run on an [Attempt]. *)
Lemma attempt_run h ctx p1 rd success msg p3 :
  Attempt h ctx p1 rd success msg p3 ->
  (match proposal_of rd with
   | None => mret (false, Some "LLM could not generate a patch")
   | Some pp =>
       success ← _apply_llm_patch h ctx pp;
       if success : bool then
         _ ← modify incr_patches_applied;
         mret (true, None)
       else mret (false, Some "Patch application failed")
   end) p1 = (Ok (success, msg), p3).
Proof.
  intros [| pp raw p2 E | pp raw p2 E]; simpl.
  - reflexivity.
  - rewrite (run_bind_ok _ _ _ _ _ E). reflexivity.
  - rewrite (run_bind_ok _ _ _ _ _ E). reflexivity.
Qed.

(** [handle] always returns, along one of the paths of [HandlePath]. *)
Lemma handle_path h et ev tb p :
  exists r p',
    handle h et ev tb p = (Ok r, p') /\ HandlePath h et ev tb p r p'.
Proof.
  destruct (from_traceback_state h et ev tb p) as [ctx Hctx].
  destruct (get_llm_client_cases h p) as [[e Hc] | [c Hc]].
  { exists RFalse, p. split; [| eapply path_client_fault; eauto].
    unfold handle. erewrite run_try_raise.
    - rewrite select_Exception_first. reflexivity.
    - rewrite (run_bind_ok _ _ _ _ _ Hctx).
      rewrite (run_bind_raise _ _ _ _ _ Hc). reflexivity. }
  set (p1 := set_llm_client (Some c) p) in *.
  destruct (analyze_returns h c ctx p1) as [rd Hrd].
  destruct (attempt_exists h ctx p1 rd) as (success & msg & p3 & Hat).
  pose proof (attempt_run _ _ _ _ _ _ _ Hat) as Hrun.
  destruct (get_debug_logger h p3) as [[l | e] p4] eqn:Hl.
  - destruct (log_ai_session h l ctx (proposal_of rd) success
                (Some (raw_of rd)) msg p4) as [w p5] eqn:Hw.
    assert (exists w', w = Ok w') as [w' ->].
    { destruct (log_ai_session_cases h l ctx (proposal_of rd) success
                  (Some (raw_of rd)) msg p4) as [E | (? & _ & _ & _ & E)];
        rewrite E in Hw; injection Hw as <- _; eauto. }
    exists (ret_of_bool success), p5.
    split; [| eapply path_logged; eauto].
    unfold handle. apply run_try_ok.
    rewrite (run_bind_ok _ _ _ _ _ Hctx).
    rewrite (run_bind_ok _ _ _ _ _ Hc).
    apply run_try_ok.
    rewrite (run_bind_ok _ _ _ _ _ Hrd).
    fold (proposal_of rd). fold (raw_of rd).
    rewrite (run_bind_ok _ _ _ _ _ Hrun). simpl.
    rewrite (run_bind_ok _ _ _ _ _ Hl).
    rewrite (run_bind_ok _ _ _ _ _ Hw). reflexivity.
  - pose proof (get_debug_logger_raise_state _ _ _ _ Hl) as ->.
    exists RFalse, p3. split; [| eapply path_logger_fault; eauto].
    unfold handle. apply run_try_ok.
    rewrite (run_bind_ok _ _ _ _ _ Hctx).
    rewrite (run_bind_ok _ _ _ _ _ Hc).
    erewrite run_try_raise.
    + rewrite select_Exception_first.
      erewrite run_bind_ok; [reflexivity |].
      erewrite run_try_raise.
      * rewrite select_Exception_first. reflexivity.
      * rewrite (run_bind_raise _ _ _ _ _ Hl). reflexivity.
    + rewrite (run_bind_ok _ _ _ _ _ Hrd).
      fold (proposal_of rd). fold (raw_of rd).
      rewrite (run_bind_ok _ _ _ _ _ Hrun). simpl.
      rewrite (run_bind_raise _ _ _ _ _ Hl). reflexivity.
Qed.

(** Running [handle] is deterministic, so a run is the path found above. *)
Lemma handle_inv h et ev tb p r p' :
  handle h et ev tb p = (Ok r, p') -> HandlePath h et ev tb p r p'.
Proof.
  intros E. destruct (handle_path h et ev tb p) as (r0 & p0 & E0 & Hp).
  rewrite E0 in E. injection E as <- <-. exact Hp.
Qed.

(** ** What [handle] leaves alone *)

Section HandleFrame.
Context (h : Host) {X : Type} (f : Process -> X).
Hypothesis f_modules : forall m p, f (set_modules m p) = f p.
Hypothesis f_client : forall c p, f (set_llm_client c p) = f p.
Hypothesis f_logger : forall l p, f (set_debug_logger l p) = f p.
Hypothesis f_fs : forall d p, f (set_fs d p) = f p.

(** Up to the logger, only the increment of [patches_applied] can
    change [f]. *)
Lemma attempt_frames ctx p1 rd success msg p3 :
  Attempt h ctx p1 rd success msg p3 ->
  exists p2, f p2 = f p1
    /\ p3 = if success then incr_patches_applied p2 else p2.
Proof.
  intros [| pp raw p2 E | pp raw p2 E].
  - exists p1. auto.
  - exists p2. split; [| reflexivity].
    exact (_apply_llm_patch_frames h f f_modules _ _ _ _ _ E).
  - exists p2. split; [| reflexivity].
    exact (_apply_llm_patch_frames h f f_modules _ _ _ _ _ E).
Qed.

Hypothesis f_incr : forall p, f (incr_patches_applied p) = f p.


End HandleFrame.



(** What a path does to the counter: one more exactly when the applier
    confirmed a patch, whatever [handle] then returns. *)
Lemma handle_path_counter h et ev tb p r p' :
  HandlePath h et ev tb p r p' ->
  (r = RTrue ->
   patches_applied (self p') = (patches_applied (self p) + 1)%Z)
  /\ (patches_applied (self p') = patches_applied (self p)
      \/ patches_applied (self p') = (patches_applied (self p) + 1)%Z).
Proof.
  set (f := fun q => patches_applied (self q)).
  intros [ctx e _ _
         | ctx c p1 rd success msg p3 l p4 w p5 _ Hc _ Hat Hl Hw
         | ctx c p1 rd success msg p3 e _ Hc _ Hat _].
  - split; [discriminate | now left].
  - assert (E5 : f p5 = f p3).
    { rewrite <- (get_debug_logger_frames h f (fun _ _ => eq_refl)
                    (fun _ _ => eq_refl) _ _ _ Hl).
      exact (log_ai_session_frames h f _ _ _ _ _ _ (fun _ _ => eq_refl) _ _ _ Hw). }
    destruct (attempt_frames h f (fun _ _ => eq_refl) _ _ _ _ _ _ Hat)
      as (p2 & E2 & ->).
    pose proof (get_llm_client_frames h f (fun _ _ => eq_refl) _ _ _ Hc) as E1.
    unfold agree, f in *. rewrite E5.
    destruct success; simpl; rewrite E2, E1.
    + split; [reflexivity | now right].
    + split; [discriminate | now left].
  - destruct (attempt_frames h f (fun _ _ => eq_refl) _ _ _ _ _ _ Hat)
      as (p2 & E2 & ->).
    pose proof (get_llm_client_frames h f (fun _ _ => eq_refl) _ _ _ Hc) as E1.
    unfold agree, f in *.
    split; [discriminate |].
    destruct success; simpl; rewrite E2, E1; [now right | now left].
Qed.

(** When [handle] returns [True] the counter has gone up by exactly one. *)
Lemma handle_true_increments h et ev tb p p' :
  handle h et ev tb p = (Ok RTrue, p') ->
  patches_applied (self p') = (patches_applied (self p) + 1)%Z.
Proof.
  intros E. apply handle_inv in E.
  apply handle_path_counter in E as [E _]. now apply E.
Qed.

(** ** The result of [handle] *)

(** C3. [handle] returns [True] only if the generator produced a
    proposal and [_apply_llm_patch] returned [True] for it: a run that
    returns [True] captured a context, obtained a client, got a proposal
    (not [None]) from the generator, and had the applier return [True] for
    that proposal. So without a client, without a proposal, when the applier
    fails and on an internal fault, the result is not [True]. *)
Theorem handle_true_only_if_applied h exc_type exc_value tb p p' :
  handle h exc_type exc_value tb p = (Ok RTrue, p') ->
  exists ctx client p1 proposal raw p2,
    from_traceback h exc_type exc_value tb p = (Ok ctx, p)
    /\ get_llm_client h p = (Ok (Some client), p1)
    /\ analyze_exception_and_generate_patch_with_raw h client ctx p1
         = (Ok (Some (proposal, raw)), p1)
    /\ _apply_llm_patch h ctx proposal p1 = (Ok true, p2).
Proof.
  intros E. apply handle_inv in E.
  inversion E as [| ctx c p1 rd success msg p3 l p4 w p5 Hctx Hc Hrd Hat Hl Hw Hr |].
  destruct success; [| discriminate].
  inversion Hat as [| pp raw p2 Happ |]; subst.
  exists ctx, c, p1, pp, raw, p2. auto.
Qed.



(** ** The result of [_apply_llm_patch] *)

(** In the inner [try] of [_apply_llm_patch] the clause [except Exception]
    comes first, so the clause [except SyntaxError] after it is never
    selected. *)
Lemma syntax_error_clause_unreachable {A} (e : Exc.t) (k1 k2 : Exc.t -> M A) :
  select_handler e [([Exc.Exception], k1); ([Exc.SyntaxError], k2)] = Some k1.
Proof. apply select_Exception_first. Qed.



(** The defect behind C1, in general: when [exec] raises, [SyntaxError]
    included, and the name was bound before to something other than [None],
    the applier reports success although nothing was rebound. *)
Lemma _apply_llm_patch_after_raise h ctx pp p name module v e :
  _extract_function_name (patch_code pp) = Some name ->
  _get_function_namespace (target_fqn ctx) p = (Ok (Some module), p) ->
  namespace_of p module !! name = Some v -> v <> VNone ->
  py_exec h (patch_code pp) (namespace_of p module)
    = ExecRaised e (namespace_of p module) ->
  exists p', _apply_llm_patch h ctx pp p = (Ok true, p')
    /\ namespace_of p' module !! name = Some v.
Proof.
  intros En Hns Hv Hnn Hx.
  assert (Hnew : namespace_of
            (set_modules (<[module := namespace_of p module]> (modules p)) p)
            module = namespace_of p module).
  { unfold namespace_of at 1. simpl. now rewrite lookup_insert_eq. }
  exists (set_modules (<[module := namespace_of p module]> (modules p)) p).
  split.
  - unfold _apply_llm_patch. apply run_try_ok. rewrite En.
    rewrite (run_bind_ok _ _ _ _ _ Hns).
    unfold mbind, M_bind, get, mret, M_ret, exec_in, try_except. simpl.
    unfold hasattr at 1. rewrite Hv.
    rewrite bool_decide_eq_true_2 by eauto. simpl.
    rewrite Hx. simpl. rewrite issubclass_Exception. simpl.
    unfold hasattr, getattr. rewrite Hnew, Hv.
    rewrite bool_decide_eq_true_2 by eauto. simpl.
    rewrite Hnew, Hv. simpl.
    rewrite bool_decide_eq_false_2 by exact Hnn. reflexivity.
  - rewrite Hnew. exact Hv.
Qed.

(** C1, at the failing input. The patch text is not Python and [exec]
    raises [SyntaxError] on it without running anything; the applier
    nevertheless returns [True]. The binding of [divide_numbers] is the
    original function, as before the call. *)
Theorem apply_reports_success_on_syntax_error :
  _extract_function_name Sample.bad_syntax_patch = Some "divide_numbers"
  /\ py_exec Sample.healthy_host Sample.bad_syntax_patch
       (namespace_of Sample.fresh "__main__")
     = ExecRaised (Exc.Raised Exc.SyntaxError "'(' was never closed")
                  (namespace_of Sample.fresh "__main__")
  /\ _apply_llm_patch Sample.healthy_host Sample.context
       (Sample.proposal Sample.bad_syntax_patch) Sample.fresh
     = (Ok true, Sample.fresh)
  /\ namespace_of Sample.fresh "__main__" !! "divide_numbers"
     = Some (VFunction Sample.original_source).
Proof. vm_compute. repeat split. Qed.




Lemma handle_true_only_if_applied_witness :
  (handle Sample.healthy_host Sample.exc_type Sample.exc_value
     (Some Sample.tb) Sample.fresh).1 = Ok RTrue
  /\ exists ctx client p1 proposal raw p2,
       from_traceback Sample.healthy_host Sample.exc_type Sample.exc_value
         (Some Sample.tb) Sample.fresh = (Ok ctx, Sample.fresh)
       /\ get_llm_client Sample.healthy_host Sample.fresh = (Ok (Some client), p1)
       /\ analyze_exception_and_generate_patch_with_raw Sample.healthy_host
            client ctx p1 = (Ok (Some (proposal, raw)), p1)
       /\ _apply_llm_patch Sample.healthy_host ctx proposal p1 = (Ok true, p2).
Proof.
  split; [vm_compute; reflexivity |].
  apply (handle_true_only_if_applied Sample.healthy_host Sample.exc_type
           Sample.exc_value (Some Sample.tb) Sample.fresh
           (handle Sample.healthy_host Sample.exc_type Sample.exc_value
              (Some Sample.tb) Sample.fresh).2).
  vm_compute. reflexivity.
Defined.

(** ** The counter of applied patches *)


(** Up to the logger, the logger singleton and the file system are as
    they were. *)
Lemma attempt_keeps_logger h ctx p c rd success msg p3 :
  Attempt h ctx (set_llm_client (Some c) p) rd success msg p3 ->
  _global_debug_logger p3 = _global_debug_logger p /\ fs p3 = fs p.
Proof.
  intros Hat.
  destruct (attempt_frames h (fun q => (_global_debug_logger q, fs q))
              (fun _ _ => eq_refl) _ _ _ _ _ _ Hat) as (p2 & E2 & ->).
  simpl in E2. injection E2 as El Ef.
  destruct success; simpl; auto.
Qed.

Lemma get_llm_client_state h p c p1 :
  get_llm_client h p = (Ok (Some c), p1) -> p1 = set_llm_client (Some c) p.
Proof.
  intros E. destruct (get_llm_client_cases h p) as [[e E'] | [c' E']];
    rewrite E' in E; [discriminate |].
  now injection E as <- <-.
Qed.

(** When the logger can be obtained, a result other than [True] leaves
    the counter as it was. *)
Lemma handle_not_true_keeps_counter h et ev tb p r p' :
  logger_obtainable h p ->
  handle h et ev tb p = (Ok r, p') -> r <> RTrue ->
  patches_applied (self p') = patches_applied (self p).
Proof.
  intros Hlog E Hr. apply handle_inv in E.
  set (f := fun q => patches_applied (self q)).
  destruct E as [ctx e _ _
                | ctx c p1 rd success msg p3 l p4 w p5 _ Hc _ Hat Hl Hw
                | ctx c p1 rd success msg p3 e _ Hc _ Hat Hl].
  - reflexivity.
  - destruct success; [now destruct Hr |].
    change (f p5 = f p).
    rewrite (log_ai_session_frames h f _ _ _ _ _ _ (fun _ _ => eq_refl) _ _ _ Hw).
    rewrite (get_debug_logger_frames h f (fun _ _ => eq_refl)
               (fun _ _ => eq_refl) _ _ _ Hl).
    destruct (attempt_frames h f (fun _ _ => eq_refl) _ _ _ _ _ _ Hat)
      as (p2 & E2 & ->).
    rewrite E2. exact (get_llm_client_frames h f (fun _ _ => eq_refl) _ _ _ Hc).
  - apply get_llm_client_state in Hc. subst p1.
    destruct (attempt_keeps_logger _ _ _ _ _ _ _ _ Hat) as [El Ef].
    destruct (get_debug_logger_ok h p3) as (l & p4 & E & _).
    { unfold logger_obtainable in Hlog. now rewrite El, Ef. }
    rewrite E in Hl. discriminate.
Qed.

(** C10, at the failing input. The patch is applied and the counter
    goes from 0 to 1; then the log directory cannot be created,
    [get_debug_logger] raises inside the [try] that guards the model call,
    and [handle] returns [False]: a result other than [True] with the
    counter changed. The function has been rebound all the same. *)
Theorem handle_false_with_counter_incremented :
  (handle Sample.no_mkdir_host Sample.exc_type Sample.exc_value
     (Some Sample.tb) Sample.fresh).1 = Ok RFalse
  /\ patches_applied (self Sample.fresh) = 0%Z
  /\ patches_applied
       (self (handle Sample.no_mkdir_host Sample.exc_type Sample.exc_value
                (Some Sample.tb) Sample.fresh).2) = 1%Z
  /\ namespace_of
       (handle Sample.no_mkdir_host Sample.exc_type Sample.exc_value
          (Some Sample.tb) Sample.fresh).2 "__main__" !! "divide_numbers"
     = Some (VFunction Sample.good_patch)
  /\ debug (self (handle Sample.no_mkdir_host Sample.exc_type Sample.exc_value
                    (Some Sample.tb) Sample.fresh).2)
     = debug (self Sample.fresh).
Proof. vm_compute. repeat split. Qed.

(** ** The session record *)

Lemma append_nil (b : string) : "" +:+ b = b.
Proof. reflexivity. Qed.

Lemma append_cons x (a b : string) : String x a +:+ b = String x (a +:+ b).
Proof. reflexivity. Qed.

Lemma append_assoc (a b c : string) : (a +:+ b) +:+ c = a +:+ (b +:+ c).
Proof.
  induction a as [| x a IH]; [reflexivity |].
  rewrite !append_cons. now f_equal.
Qed.

Lemma begins_with_self a b : begins_with a (a +:+ b).
Proof. now exists b. Qed.

Lemma begins_with_append a s t : begins_with a s -> begins_with a (s +:+ t).
Proof. intros [rest ->]. exists (rest +:+ t). apply append_assoc. Qed.

Lemma strip_prefix_append sub a b r :
  PyStr.strip_prefix sub a = Some r ->
  PyStr.strip_prefix sub (a +:+ b) = Some (r +:+ b).
Proof.
  revert a. induction sub as [| x sub IH]; intros a; simpl.
  - intros [= ->]. reflexivity.
  - destruct a as [| y a]; [discriminate |].
    rewrite append_cons.
    destruct (Ascii.eqb x y); [apply IH | discriminate].
Qed.

Lemma startswith_append sub a b :
  PyStr.startswith sub a = true -> PyStr.startswith sub (a +:+ b) = true.
Proof.
  unfold PyStr.startswith.
  destruct (PyStr.strip_prefix sub a) as [r |] eqn:E; [| discriminate].
  now rewrite (strip_prefix_append _ _ b _ E).
Qed.

Lemma contains_unfold sub s :
  PyStr.contains sub s =
    if PyStr.startswith sub s then true
    else match s with
         | String _ r => PyStr.contains sub r
         | EmptyString => false
         end.
Proof. destruct s; reflexivity. Qed.

Lemma contains_append sub a b :
  PyStr.contains sub a = true -> PyStr.contains sub (a +:+ b) = true.
Proof.
  induction a as [| x a IH]; intros H; rewrite contains_unfold in H;
    rewrite contains_unfold.
  - destruct (PyStr.startswith sub "") eqn:E; [| discriminate].
    now rewrite (startswith_append _ _ b E).
  - destruct (PyStr.startswith sub (String x a)) eqn:E.
    + now rewrite (startswith_append _ _ b E).
    + rewrite append_cons.
      destruct (PyStr.startswith sub (String x (a +:+ b))); auto.
Qed.

(** A record begins with the banner and the status line of its outcome. *)
Lemma markdown_head h ctx pp success raw msg :
  begins_with (record_head success)
              (_generate_debug_markdown h ctx pp success raw msg).
Proof.
  unfold _generate_debug_markdown. cbv zeta.
  repeat first
    [ apply begins_with_self
    | apply begins_with_append
    | match goal with
      | |- begins_with _ (match ?x with _ => _ end) => destruct x
      end ].
Qed.

(** What the readers of the log test: the marker of a successful
    session. A record of a successful session carries it. *)
Lemma markdown_success_marker h ctx pp raw msg :
  PyStr.contains status_marker
    (_generate_debug_markdown h ctx pp true raw msg) = true.
Proof.
  destruct (markdown_head h ctx pp true raw msg) as [rest ->].
  apply contains_append. vm_compute. reflexivity.
Qed.






(** ** The generator *)

(** The constructor call raises [AttributeError], [TypeError],
    [ValueError], [OverflowError] or [ValidationError], never
    [JSONDecodeError]. *)
Lemma proposal_of_patch_data_raise h d p e q :
  proposal_of_patch_data h d p = (Raise e, q) ->
  Exc.issubclass (Exc.cls e) Exc.JSONDecodeError = false.
Proof.
  unfold proposal_of_patch_data, json_get, mbind, M_bind, mret, M_ret, raise.
  destruct d; try (intros [= <- _]; reflexivity).
  destruct (match dict_get "confidence" members with
            | Some v => v
            | None => JFloat 0.5
            end) as [| b | z | f | s | l | m]; simpl;
    try (intros [= <- _]; reflexivity).
  - unfold PatchProposal_init.
    repeat match goal with
           | |- context [match ?x with _ => _ end] => destruct x; simpl
           end; try discriminate; intros [= <- _]; reflexivity.
  - unfold float_of_Z, raise, mret, M_ret.
    destruct (is_infinity _); simpl; [intros [= <- _]; reflexivity |].
    unfold PatchProposal_init.
    repeat match goal with
           | |- context [match ?x with _ => _ end] => destruct x; simpl
           end; try discriminate; intros [= <- _]; reflexivity.
  - unfold PatchProposal_init.
    repeat match goal with
           | |- context [match ?x with _ => _ end] => destruct x; simpl
           end; try discriminate; intros [= <- _]; reflexivity.
  - destruct (float_of_str h s); simpl; [| intros [= <- _]; reflexivity].
    unfold PatchProposal_init.
    repeat match goal with
           | |- context [match ?x with _ => _ end] => destruct x; simpl
           end; try discriminate; intros [= <- _]; reflexivity.
Qed.

Lemma proposal_of_patch_data_state h d p r q :
  proposal_of_patch_data h d p = (r, q) -> q = p.
Proof. intros E. symmetry. exact (proposal_of_patch_data_stateless h d p r q E). Qed.

(** A run of the generator that returns a proposal: the reply was
    stripped, a payload was parsed from it, and the constructor call on
    that payload returned the proposal. *)
Lemma analyze_some_inv h c ctx p pp raw p' :
  analyze_exception_and_generate_patch_with_raw h c ctx p
    = (Ok (Some (pp, raw)), p') ->
  exists content payload,
    chat_completion h ctx = Ok (Some content)
    /\ raw = PyStr.strip content
    /\ parsed_payload h raw = Some payload
    /\ proposal_of_patch_data h payload p = (Ok pp, p).
Proof.
  unfold analyze_exception_and_generate_patch_with_raw, parsed_payload.
  unfold try_except at 1. unfold mbind at 1, M_bind at 1, lift.
  destruct (chat_completion h ctx) as [[content |] | e]; simpl;
    try discriminate.
  - unfold mbind at 1, M_bind at 1, try_except at 1, loads. simpl.
    unfold mbind at 1, M_bind at 1.
    destruct (json_loads h (PyStr.strip content)) as [payload |] eqn:Ej; simpl.
    + unfold mbind at 1, M_bind at 1.
      destruct (proposal_of_patch_data h payload p) as [[pp' | e] q] eqn:Ep.
      * pose proof (proposal_of_patch_data_state _ _ _ _ _ Ep) as ->.
        simpl. intros [= <- <- <-].
        exists content, payload. rewrite Ej. auto.
      * rewrite (proposal_of_patch_data_raise _ _ _ _ _ Ep). simpl.
        rewrite issubclass_Exception. simpl. discriminate.
    + unfold try_except.
      destruct (FencedJson.search (PyStr.strip content)) as [g |] eqn:Es;
        simpl; [| discriminate].
      unfold mbind at 1, M_bind at 1, loads.
      destruct (json_loads h g) as [payload |] eqn:Eg; simpl;
        [| discriminate].
      unfold mbind at 1, M_bind at 1.
      destruct (proposal_of_patch_data h payload p) as [[pp' | e] q] eqn:Ep.
      * pose proof (proposal_of_patch_data_state _ _ _ _ _ Ep) as ->.
        simpl. intros [= <- <- <-].
        exists content, payload. rewrite Ej, Es. auto.
      * simpl.
        destruct (Exc.issubclass (Exc.cls e) Exc.JSONDecodeError
                  || (Exc.issubclass (Exc.cls e) Exc.AttributeError || false));
          simpl; [discriminate |].
        rewrite issubclass_Exception. simpl. discriminate.
  - rewrite issubclass_Exception. simpl. discriminate.
Qed.

(** The constructor call on an object without a [confidence] member. *)
Lemma proposal_confidence_default h members p pp q :
  dict_get "confidence" members = None ->
  proposal_of_patch_data h (JObj members) p = (Ok pp, q) ->
  confidence pp = 0.5%float.
Proof.
  intros Hc. unfold proposal_of_patch_data, json_get.
  rewrite Hc. unfold mbind, M_bind, mret, M_ret. simpl.
  unfold PatchProposal_init.
  repeat match goal with
         | |- context [match ?x with _ => _ end] => destruct x; simpl
         end; try discriminate; intros [= <- _]; reflexivity.
Qed.

(** C9, as the code has it. When the payload the generator parsed is an
    object without a [confidence] member, the proposal it returns has
    confidence 0.5. (The default 0.8 of the class [PatchProposal] never
    applies: both parse paths pass [confidence] to the constructor.) *)
Theorem absent_confidence_defaults_to_half h client ctx p proposal raw p' members :
  analyze_exception_and_generate_patch_with_raw h client ctx p
    = (Ok (Some (proposal, raw)), p') ->
  parsed_payload h raw = Some (JObj members) ->
  dict_get "confidence" members = None ->
  confidence proposal = 0.5%float.
Proof.
  intros E Hp Hc.
  destruct (analyze_some_inv _ _ _ _ _ _ _ E) as (content & payload & _ & _ & Hp' & Hpp).
  rewrite Hp in Hp'. injection Hp' as <-.
  exact (proposal_confidence_default _ _ _ _ _ Hc Hpp).
Qed.

Lemma absent_confidence_defaults_to_half_witness :
  analyze_exception_and_generate_patch_with_raw Sample.no_confidence_host
    Sample.client Sample.context Sample.fresh
  = (Ok (Some (Sample.proposal_with 0.5 Sample.good_patch,
               Sample.payload_without_confidence)), Sample.fresh)
  /\ parsed_payload Sample.no_confidence_host Sample.payload_without_confidence
     = Some (JObj (Sample.members Sample.good_patch None))
  /\ dict_get "confidence" (Sample.members Sample.good_patch None) = None
  /\ confidence (Sample.proposal_with 0.5 Sample.good_patch) = 0.5%float.
Proof.
  assert (E : analyze_exception_and_generate_patch_with_raw
                Sample.no_confidence_host Sample.client Sample.context
                Sample.fresh
              = (Ok (Some (Sample.proposal_with 0.5 Sample.good_patch,
                           Sample.payload_without_confidence)), Sample.fresh))
    by (vm_compute; reflexivity).
  assert (P : parsed_payload Sample.no_confidence_host
                Sample.payload_without_confidence
              = Some (JObj (Sample.members Sample.good_patch None)))
    by (vm_compute; reflexivity).
  split; [exact E |]. split; [exact P |]. split; [reflexivity |].
  exact (absent_confidence_defaults_to_half _ _ _ _ _ _ _ _ E P eq_refl).
Defined.

(** C9 fails as stated: for a payload that parses and has no
    [confidence] member, the proposal has confidence 0.5, which is not the
    0.8 of the claim. *)
Lemma absent_confidence_is_not_the_class_default :
  json_loads Sample.no_confidence_host Sample.payload_without_confidence
    = Some (JObj (Sample.members Sample.good_patch None))
  /\ dict_get "confidence" (Sample.members Sample.good_patch None) = None
  /\ (analyze_exception_and_generate_patch_with_raw Sample.no_confidence_host
        Sample.client Sample.context Sample.fresh).1
     = Ok (Some (Sample.proposal_with 0.5 Sample.good_patch,
                 Sample.payload_without_confidence))
  /\ confidence (Sample.proposal_with 0.5 Sample.good_patch) = 0.5%float
  /\ PrimFloat.eqb 0.5 0.8 = false
  /\ PatchProposal_default_confidence = 0.8%float.
Proof. vm_compute. repeat split. Qed.

(** *** The fenced block *)


Lemma strip_prefix_self a r : PyStr.strip_prefix a (a +:+ r) = Some r.
Proof.
  induction a as [| x a IH]; [reflexivity |].
  rewrite append_cons. simpl. now rewrite Ascii.eqb_refl.
Qed.

Lemma all_chars_cons p x (s : string) :
  PyStr.all_chars p (String x s) = p x && PyStr.all_chars p s.
Proof. reflexivity. Qed.

Lemma drop_while_cons p x (s : string) :
  PyStr.drop_while p (String x s) =
    if p x then PyStr.drop_while p s else String x s.
Proof. reflexivity. Qed.


Lemma lazy_body_cons c (r : string) :
  FencedJson.lazy_body (String c r) =
    if Ascii.eqb c "}"
       && PyStr.startswith FencedJson.fence (PyStr.drop_while PyStr.is_space r)
    then Some (String c EmptyString)
    else match FencedJson.lazy_body r with
         | Some g => Some (String c g)
         | None => None
         end.
Proof. reflexivity. Qed.






(** *** What the generator returns for a reply *)

Lemma analyze_reply h c ctx p content :
  chat_completion h ctx = Ok (Some content) ->
  analyze_exception_and_generate_patch_with_raw h c ctx p =
    (Ok match parsed_payload h (PyStr.strip content) with
        | Some payload => proposal_or_none h payload (PyStr.strip content) p
        | None => None
        end, p).
Proof.
  intros Hc.
  unfold analyze_exception_and_generate_patch_with_raw, parsed_payload,
    proposal_or_none.
  unfold try_except at 1. unfold mbind at 1, M_bind at 1, lift.
  rewrite Hc. simpl.
  unfold mbind at 1, M_bind at 1, try_except at 1, loads. simpl.
  unfold mbind at 1, M_bind at 1.
  destruct (json_loads h (PyStr.strip content)) as [payload |] eqn:Ej; simpl.
  - unfold mbind at 1, M_bind at 1.
    destruct (proposal_of_patch_data h payload p) as [[pp | e] q] eqn:Ep.
    + pose proof (proposal_of_patch_data_state _ _ _ _ _ Ep) as ->.
      reflexivity.
    + pose proof (proposal_of_patch_data_state _ _ _ _ _ Ep) as ->.
      rewrite (proposal_of_patch_data_raise _ _ _ _ _ Ep). simpl.
      rewrite issubclass_Exception. reflexivity.
  - unfold try_except.
    destruct (FencedJson.search (PyStr.strip content)) as [g |] eqn:Es;
      simpl; [| reflexivity].
    unfold mbind at 1, M_bind at 1, loads.
    destruct (json_loads h g) as [payload |] eqn:Eg; simpl; [| reflexivity].
    unfold mbind at 1, M_bind at 1.
    destruct (proposal_of_patch_data h payload p) as [[pp | e] q] eqn:Ep.
    + pose proof (proposal_of_patch_data_state _ _ _ _ _ Ep) as ->.
      reflexivity.
    + pose proof (proposal_of_patch_data_state _ _ _ _ _ Ep) as ->.
      simpl.
      destruct (Exc.issubclass (Exc.cls e) Exc.JSONDecodeError
                || (Exc.issubclass (Exc.cls e) Exc.AttributeError || false));
        simpl; [reflexivity |].
      rewrite issubclass_Exception. reflexivity.
Qed.

(** The constructor call on an object whose members, where present, have
    the declared types: the proposal holds the members, with the defaults
    of the two parse paths for the absent ones. *)
Lemma proposal_of_typed_object h members p pc ex cf l tcs :
  member_or members "patch_code" (JStr "") = JStr pc ->
  member_or members "explanation" (JStr "") = JStr ex ->
  py_float h (member_or members "confidence" (JFloat 0.5)) p = (Ok cf, p) ->
  member_or members "test_cases" (JArr []) = JArr l ->
  all_strings l = Some tcs ->
  proposal_of_patch_data h (JObj members) p =
    (Ok {| patch_code := pc; explanation := ex; confidence := cf;
           test_cases := tcs |}, p).
Proof.
  unfold member_or. intros Hpc Hex Hcf Hl Htcs.
  unfold proposal_of_patch_data, json_get, mbind, M_bind, mret, M_ret.
  rewrite Hcf, Hpc, Hex, Hl. simpl. rewrite Htcs. reflexivity.
Qed.




(** ** Session statistics *)

Lemma insert_desc_perm x l : insert_desc x l ≡ₚ x :: l.
Proof.
  induction l as [| y l IH]; simpl; [reflexivity |].
  destruct (String.leb y x); [reflexivity |].
  rewrite IH. apply Permutation_swap.
Qed.

Lemma sort_reverse_perm l : sort_reverse l ≡ₚ l.
Proof.
  induction l as [| x l IH]; simpl; [reflexivity |].
  unfold sort_reverse in *. simpl. rewrite insert_desc_perm. now rewrite IH.
Qed.

Lemma count_successful_perm entries l l' :
  l ≡ₚ l' -> count_successful entries l = count_successful entries l'.
Proof.
  induction 1 as [| x l l' _ IH | x y l | l l' l'' _ IH1 _ IH2]; simpl.
  - reflexivity.
  - now rewrite IH.
  - lia.
  - congruence.
Qed.

Lemma session_files_NoDup entries : NoDup (session_files entries).
Proof. apply NoDup_filter, NoDup_fst_map_to_list. Qed.

Lemma elem_of_session_files entries n :
  n ∈ session_files entries <->
  PyStr.endswith ".md" n = true /\ is_Some (entries !! n).
Proof.
  unfold session_files. rewrite list_elem_of_filter, list_elem_of_fmap.
  split.
  - intros [Hmd ([n' f] & -> & Hin)]. split; [exact Hmd |].
    apply elem_of_map_to_list in Hin. simpl. eauto.
  - intros [Hmd [f Hf]]. split; [exact Hmd |].
    exists (n, f). split; [reflexivity |]. now apply elem_of_map_to_list.
Qed.

(** [get_session_stats] in terms of the session files. *)
Lemma get_session_stats_run self p :
  get_session_stats self p =
    let entries := default ∅ (fs p !! debug_dir self) in
    let files := sort_reverse (session_files entries) in
    let total := Z.of_nat (length files) in
    let successful := count_successful entries files in
    (Ok {| total_sessions := total;
           successful_sessions := successful;
           failed_sessions := (total - successful)%Z;
           success_rate :=
             if (0 <? total)%Z
             then NFloat (PrimFloat.mul
                            (PrimFloat.div (Z_to_float successful)
                                           (Z_to_float total))
                            (Z_to_float 100))
             else NInt 0 |}, p).
Proof.
  unfold get_session_stats, list_debug_sessions, mbind, M_bind, get, mret,
    M_ret.
  destruct (fs p !! debug_dir self) as [entries |] eqn:E; simpl;
    rewrite ?E; reflexivity.
Qed.

(** C8, as the code has it. For a log directory whose session files are
    exactly three, two of them carrying the marker of success and the third
    not (or unreadable), [get_session_stats] returns 3 sessions, 2
    successful, 1 failed, and as success rate the float [2 / 3 * 100],
    which it does not round; for a directory without session files, and for
    a missing directory, the counts are 0 and the success rate is the
    integer 0. *)
Theorem get_session_stats_of_three self p :
  (forall entries n1 n2 n3 c1 c2 f3,
     fs p !! debug_dir self = Some entries ->
     NoDup [n1; n2; n3] ->
     (forall n, n ∈ session_files entries <-> n ∈ [n1; n2; n3]) ->
     entries !! n1 = Some (Text c1) ->
     entries !! n2 = Some (Text c2) ->
     entries !! n3 = Some f3 ->
     PyStr.contains status_marker c1 = true ->
     PyStr.contains status_marker c2 = true ->
     match f3 with
     | Text c3 => PyStr.contains status_marker c3 = false
     | Unreadable => True
     end ->
     get_session_stats self p =
       (Ok {| total_sessions := 3;
              successful_sessions := 2;
              failed_sessions := 1;
              success_rate := NFloat (2 / 3 * 100)%float |}, p))
  /\ (session_files (default ∅ (fs p !! debug_dir self)) = [] ->
      get_session_stats self p =
        (Ok {| total_sessions := 0;
               successful_sessions := 0;
               failed_sessions := 0;
               success_rate := NInt 0 |}, p)).
Proof.
  split.
  - intros entries n1 n2 n3 c1 c2 f3 Hd Hnd Hfiles H1 H2 H3 Hc1 Hc2 Hc3.
    rewrite get_session_stats_run, Hd. simpl.
    assert (Hperm : sort_reverse (session_files entries) ≡ₚ [n1; n2; n3]).
    { rewrite sort_reverse_perm.
      apply NoDup_Permutation; [apply session_files_NoDup | exact Hnd |].
      exact Hfiles. }
    rewrite (Permutation_length Hperm).
    rewrite (count_successful_perm _ _ _ Hperm). simpl.
    rewrite H1, H2, H3, Hc1, Hc2.
    assert (Hz : (match f3 with
                  | Text content =>
                      if PyStr.contains status_marker content then 1 else 0
                  | Unreadable => 0
                  end = 0)%Z).
    { destruct f3 as [c3 |]; [now rewrite Hc3 | reflexivity]. }
    rewrite Hz. reflexivity.
  - intros Hnil. rewrite get_session_stats_run. simpl.
    rewrite Hnil. reflexivity.
Qed.

Lemma get_session_stats_of_three_witness :
  get_session_stats {| debug_dir := "debug" |}
    (Sample.process {["debug" := Sample.three_records]})
  = (Ok {| total_sessions := 3;
           successful_sessions := 2;
           failed_sessions := 1;
           success_rate := NFloat (2 / 3 * 100)%float |},
     Sample.process {["debug" := Sample.three_records]})
  /\ get_session_stats {| debug_dir := "debug" |} Sample.with_log_dir
     = (Ok {| total_sessions := 0;
              successful_sessions := 0;
              failed_sessions := 0;
              success_rate := NInt 0 |}, Sample.with_log_dir).
Proof.
  split.
  - apply (proj1 (get_session_stats_of_three {| debug_dir := "debug" |}
                    (Sample.process {["debug" := Sample.three_records]}))
             Sample.three_records
             "demo1_divide_1700000001.md" "demo2_get_1700000003.md"
             "demo1_divide_1700000002.md"
             ("# ReflexRuntime Debug Session - SUCCESS" +:+ PyStr.nl +:+ PyStr.nl
              +:+ "**Status:** SUCCESS  " +:+ PyStr.nl)
             ("# ReflexRuntime Debug Session - SUCCESS" +:+ PyStr.nl +:+ PyStr.nl
              +:+ "**Status:** SUCCESS  " +:+ PyStr.nl)
             (Text ("# ReflexRuntime Debug Session - FAILED" +:+ PyStr.nl
                    +:+ PyStr.nl +:+ "**Status:** FAILED  " +:+ PyStr.nl))).
    + vm_compute. reflexivity.
    + apply (bool_decide_unpack _). vm_compute. exact I.
    + intros n.
      replace (session_files Sample.three_records)
        with ["demo1_divide_1700000001.md"; "demo1_divide_1700000002.md";
              "demo2_get_1700000003.md"] by (vm_compute; reflexivity).
      rewrite !elem_of_cons, !elem_of_nil. tauto.
    + vm_compute. reflexivity.
    + vm_compute. reflexivity.
    + vm_compute. reflexivity.
    + vm_compute. reflexivity.
    + vm_compute. reflexivity.
    + vm_compute. reflexivity.
  - apply (proj2 (get_session_stats_of_three {| debug_dir := "debug" |}
                    Sample.with_log_dir)).
    vm_compute. reflexivity.
Defined.

(** C8 fails as stated: for three records, two of them successful, the
    success rate that [get_session_stats] returns is the float
    [2 / 3 * 100 = 66.66666666666666], not 66.7. (The viewer rounds it to one
    decimal place when it prints it.) *)
Lemma success_rate_is_not_rounded :
  (get_session_stats {| debug_dir := "debug" |}
     (Sample.process {["debug" := Sample.three_records]})).1
  = Ok {| total_sessions := 3;
          successful_sessions := 2;
          failed_sessions := 1;
          success_rate := NFloat 0x1.0aaaaaaaaaaaap+6%float |}
  /\ PrimFloat.eqb 0x1.0aaaaaaaaaaaap+6 66.7 = false
  /\ PrimFloat.ltb 66.66666666666665 0x1.0aaaaaaaaaaaap+6 = true
  /\ PrimFloat.ltb 0x1.0aaaaaaaaaaaap+6 66.66666666666667 = true.
Proof. vm_compute. repeat split. Qed.

(** * Further properties of the pipeline *)

(** ** The function name of a patch *)

Lemma take_while_cons p x (s : string) :
  PyStr.take_while p (String x s) =
    if p x then String x (PyStr.take_while p s) else EmptyString.
Proof. reflexivity. Qed.

Lemma all_chars_take_while p s :
  PyStr.all_chars p (PyStr.take_while p s) = true.
Proof.
  induction s as [| x s IH]; [reflexivity |].
  rewrite take_while_cons. destruct (p x) eqn:E; [| reflexivity].
  rewrite all_chars_cons, E. exact IH.
Qed.

Lemma match_at_identifier s name :
  DefHeader.match_at s = Some name -> is_identifier name = true.
Proof.
  unfold DefHeader.match_at.
  destruct (PyStr.strip_prefix "def" s) as [r |]; [| discriminate].
  destruct r as [| c r]; [discriminate |].
  destruct (PyStr.is_space c); [| discriminate].
  destruct (PyStr.drop_while PyStr.is_space (String c r)) as [| c1 r1];
    [discriminate |].
  destruct (PyStr.is_ident_start c1) eqn:Hc1; [| discriminate].
  destruct (PyStr.drop_while PyStr.is_space _) as [| c3 r3]; [discriminate |].
  destruct (Ascii.eqb c3 "("); [| discriminate].
  intros [= <-].
  assert (Hic : PyStr.is_ident_char c1 = true)
    by (unfold PyStr.is_ident_char; now rewrite Hc1).
  rewrite Hic. unfold is_identifier. rewrite Hc1, all_chars_cons, Hic.
  apply all_chars_take_while.
Qed.

Lemma search_unfold s :
  DefHeader.search s =
    match DefHeader.match_at s with
    | Some name => Some name
    | None => match s with
              | String _ r => DefHeader.search r
              | EmptyString => None
              end
    end.
Proof. destruct s; reflexivity. Qed.

Lemma match_at_identifier_search patch_code name :
  _extract_function_name patch_code = Some name -> is_identifier name = true.
Proof.
  unfold _extract_function_name.
  induction patch_code as [| c s IH]; rewrite search_unfold.
  - destruct (DefHeader.match_at "") eqn:E; [| discriminate].
    intros [= <-]. exact (match_at_identifier _ _ E).
  - destruct (DefHeader.match_at (String c s)) eqn:E.
    + intros [= <-]. exact (match_at_identifier _ _ E).
    + exact IH.
Qed.

(** Whatever [_extract_function_name] returns is an identifier: it is not
    empty, begins with a letter or an underscore and consists of letters,
    digits and underscores. *)
Theorem extracted_name_is_identifier patch_code name :
  _extract_function_name patch_code = Some name -> is_identifier name = true.
Proof. apply match_at_identifier_search. Qed.

Lemma extracted_name_is_identifier_witness :
  _extract_function_name Sample.good_patch = Some "divide_numbers"
  /\ is_identifier "divide_numbers" = true.
Proof.
  split; [vm_compute; reflexivity |].
  apply (extracted_name_is_identifier Sample.good_patch).
  vm_compute. reflexivity.
Defined.

Lemma ident_char_not_space c :
  PyStr.is_ident_char c = true -> PyStr.is_space c = false.
Proof.
  destruct c as [[] [] [] [] [] [] [] []]; vm_compute; congruence.
Qed.

Lemma ident_char_not_paren c :
  PyStr.is_ident_char c = true -> Ascii.eqb c "(" = false.
Proof.
  destruct c as [[] [] [] [] [] [] [] []]; vm_compute; congruence.
Qed.

Lemma take_while_all p (a : string) c r :
  PyStr.all_chars p a = true -> p c = false ->
  PyStr.take_while p (a +:+ String c r) = a.
Proof.
  intros Ha Hc. induction a as [| x a IH].
  - rewrite append_nil, take_while_cons. now rewrite Hc.
  - rewrite append_cons, take_while_cons.
    rewrite all_chars_cons in Ha. apply andb_true_iff in Ha as [-> Ha].
    now rewrite (IH Ha).
Qed.

Lemma drop_while_all p (a : string) c r :
  PyStr.all_chars p a = true -> p c = false ->
  PyStr.drop_while p (a +:+ String c r) = String c r.
Proof.
  intros Ha Hc. induction a as [| x a IH].
  - rewrite append_nil, drop_while_cons. now rewrite Hc.
  - rewrite append_cons, drop_while_cons.
    rewrite all_chars_cons in Ha. apply andb_true_iff in Ha as [-> Ha].
    exact (IH Ha).
Qed.

(** A patch that begins with a function header: [def], white space, an
    identifier, optional white space, an opening parenthesis. The name
    extracted is that identifier, whatever follows. *)
Theorem extract_name_of_header c ws name ws' rest :
  PyStr.is_space c = true ->
  PyStr.all_chars PyStr.is_space ws = true ->
  is_identifier name = true ->
  PyStr.all_chars PyStr.is_space ws' = true ->
  _extract_function_name
    ("def" +:+ String c ws +:+ name +:+ ws' +:+ "(" +:+ rest) = Some name.
Proof.
  intros Hc Hws Hname Hws'.
  destruct name as [| n name']; [discriminate |].
  unfold is_identifier in Hname. apply andb_true_iff in Hname as [Hn Hall].
  assert (Hnc : PyStr.is_ident_char n = true)
    by (unfold PyStr.is_ident_char; now rewrite Hn).
  set (U := ws' +:+ "(" +:+ rest).
  assert (HdU : PyStr.drop_while PyStr.is_space U = String "(" rest)
    by (apply (drop_while_all PyStr.is_space ws' "(" rest Hws'); reflexivity).
  assert (HU : exists u0 U', U = String u0 U' /\ PyStr.is_ident_char u0 = false).
  { subst U. destruct ws' as [| w ws'].
    - exists "("%char, rest. split; reflexivity.
    - exists w, (ws' +:+ "(" +:+ rest). split; [reflexivity |].
      rewrite all_chars_cons in Hws'. apply andb_true_iff in Hws' as [Hw _].
      destruct (PyStr.is_ident_char w) eqn:E; [| reflexivity].
      apply ident_char_not_space in E. congruence. }
  destruct HU as (u0 & U' & EU & Hu0).
  unfold _extract_function_name. rewrite search_unfold.
  unfold DefHeader.match_at. rewrite strip_prefix_self.
  rewrite (append_cons c ws). cbv beta iota zeta. rewrite Hc.
  rewrite drop_while_cons, Hc.
  rewrite (append_cons n name').
  rewrite (drop_while_all PyStr.is_space ws n _ Hws
             (ident_char_not_space _ Hnc)).
  cbv beta iota. rewrite Hn.
  rewrite <- (append_cons n name'). rewrite EU.
  rewrite (take_while_all _ _ _ _ Hall Hu0), (drop_while_all _ _ _ _ Hall Hu0).
  rewrite <- EU, HdU. reflexivity.
Qed.

Lemma extract_name_of_header_witness :
  _extract_function_name
    ("def" +:+ String " " "" +:+ "divide_numbers" +:+ "" +:+ "("
     +:+ "a, b):") = Some "divide_numbers".
Proof.
  apply (extract_name_of_header " " "" "divide_numbers" "" "a, b):");
    reflexivity.
Defined.

(** ** Where the patch goes *)

Lemma split_last_none sep (s : string) :
  PyStr.all_chars (fun c => negb (Ascii.eqb c sep)) s = true ->
  PyStr.split_last sep s = None.
Proof.
  induction s as [| c s IH]; [reflexivity |].
  rewrite all_chars_cons. intros [Hc Hs]%andb_true_iff.
  simpl. rewrite (IH Hs). apply negb_true_iff in Hc. now rewrite Hc.
Qed.

Lemma split_last_append sep (a b : string) :
  PyStr.all_chars (fun c => negb (Ascii.eqb c sep)) b = true ->
  PyStr.split_last sep (a +:+ String sep b) = Some (a, b).
Proof.
  intros Hb. induction a as [| c a IH].
  - rewrite append_nil. simpl. rewrite (split_last_none _ _ Hb).
    now rewrite Ascii.eqb_refl.
  - rewrite append_cons. simpl. now rewrite IH.
Qed.

(** The namespace [_get_function_namespace] resolves, case by case:
    [__main__] when it binds the last segment of the name, whatever module
    the name mentions; else [__main__] when the module path is "unknown" or
    cannot be imported; else the module of the path; and [None] only when
    the import raises something other than [ImportError], which it does for
    an empty or a relative module path. *)
Lemma _get_function_namespace_resolution fqn p :
  _get_function_namespace fqn p =
    (Ok (if hasattr p "__main__" (PyStr.last_segment fqn) then Some "__main__"
         else if String.eqb (PyStr.before_last_dot fqn) "unknown"
         then Some "__main__"
         else if String.eqb (PyStr.before_last_dot fqn) "" then None
         else if PyStr.startswith "." (PyStr.before_last_dot fqn) then None
         else match modules p !! PyStr.before_last_dot fqn with
              | Some _ => Some (PyStr.before_last_dot fqn)
              | None => Some "__main__"
              end), p).
Proof.
  unfold _get_function_namespace, try_except, mbind, M_bind, get, mret, M_ret.
  simpl.
  destruct (hasattr p "__main__" (PyStr.last_segment fqn)); [reflexivity |].
  destruct (String.eqb (PyStr.before_last_dot fqn) "unknown"); simpl;
    [reflexivity |].
  unfold import_module, mbind, M_bind, get, raise. simpl.
  destruct (String.eqb (PyStr.before_last_dot fqn) ""); simpl;
    [reflexivity |].
  destruct (PyStr.startswith "." (PyStr.before_last_dot fqn)); simpl;
    [reflexivity |].
  destruct (modules p !! PyStr.before_last_dot fqn); reflexivity.
Qed.

(** A frame of a function defined in [__main__]: the context captured
    from it names the function so that the applier resolves [__main__],
    whatever the frame reports as its module. *)
Theorem captured_function_resolves_to_main h exc_type exc_value tb p ctx :
  from_traceback h exc_type exc_value (Some tb) p = (Ok ctx, p) ->
  co_name tb <> "<module>" ->
  no_dot (co_name tb) = true ->
  is_Some (namespace_of p "__main__" !! co_name tb) ->
  PyStr.last_segment (target_fqn ctx) = co_name tb
  /\ _get_function_namespace (target_fqn ctx) p = (Ok (Some "__main__"), p).
Proof.
  intros E Hmod Hdot Hbound. simpl in E.
  unfold try_except, mbind, M_bind, mret, M_ret in E. injection E as <-.
  simpl.
  destruct (String.eqb_spec (co_name tb) "<module>") as [? | _];
    [contradiction |].
  assert (Hseg : PyStr.last_segment
                   (default "unknown" (globals_name tb) +:+ "." +:+ co_name tb)
                 = co_name tb).
  { unfold PyStr.last_segment.
    change ("." +:+ co_name tb) with (String "." (co_name tb)).
    now rewrite (split_last_append "." _ _ Hdot). }
  split; [exact Hseg |].
  rewrite _get_function_namespace_resolution, Hseg.
  unfold hasattr. now rewrite bool_decide_eq_true_2.
Qed.

Lemma captured_function_resolves_to_main_witness :
  PyStr.last_segment (target_fqn Sample.context) = co_name Sample.tb
  /\ _get_function_namespace (target_fqn Sample.context) Sample.fresh
     = (Ok (Some "__main__"), Sample.fresh).
Proof.
  apply (captured_function_resolves_to_main Sample.healthy_host
           Sample.exc_type Sample.exc_value Sample.tb Sample.fresh
           Sample.context).
  - vm_compute. reflexivity.
  - discriminate.
  - reflexivity.
  - vm_compute. eauto.
Defined.


(** ** What the applier changes *)






(** The hot swap. When the patch names a function that the resolved
    module binds, [exec] completes, and the name is then bound to something
    other than [None], the applier returns [True]; the module's namespace
    is the one [exec] left, so a later lookup of the name finds the new
    binding, and every other module is as before. *)
Theorem _apply_llm_patch_hot_swap h ctx pp p name module old ns new :
  _extract_function_name (patch_code pp) = Some name ->
  _get_function_namespace (target_fqn ctx) p = (Ok (Some module), p) ->
  namespace_of p module !! name = Some old ->
  py_exec h (patch_code pp) (namespace_of p module) = ExecDone ns ->
  ns !! name = Some new -> new <> VNone ->
  exists p',
    _apply_llm_patch h ctx pp p = (Ok true, p')
    /\ modules p' = <[module := ns]> (modules p)
    /\ getattr p' module name = new.
Proof.
  intros En Hns Hold Hx Hnew Hnn.
  exists (set_modules (<[module := ns]> (modules p)) p).
  assert (Hafter : namespace_of
            (set_modules (<[module := ns]> (modules p)) p) module = ns).
  { unfold namespace_of. simpl. now rewrite lookup_insert_eq. }
  split; [| split; [reflexivity |]].
  - unfold _apply_llm_patch. apply run_try_ok. rewrite En.
    rewrite (run_bind_ok _ _ _ _ _ Hns).
    unfold mbind, M_bind, get, mret, M_ret, exec_in, try_except. simpl.
    unfold hasattr at 1. rewrite Hold.
    rewrite bool_decide_eq_true_2 by eauto. simpl.
    rewrite Hx. simpl. unfold getattr. rewrite Hafter, Hnew. simpl.
    rewrite bool_decide_eq_false_2 by exact Hnn. reflexivity.
  - unfold getattr. now rewrite Hafter, Hnew.
Qed.

Lemma _apply_llm_patch_hot_swap_witness :
  exists p',
    _apply_llm_patch Sample.healthy_host Sample.context
      (Sample.proposal Sample.good_patch) Sample.fresh = (Ok true, p')
    /\ modules p' =
         <["__main__" := <["divide_numbers" := VFunction Sample.good_patch]>
                           Sample.main_namespace]> (modules Sample.fresh)
    /\ getattr p' "__main__" "divide_numbers" = VFunction Sample.good_patch.
Proof.
  apply (_apply_llm_patch_hot_swap Sample.healthy_host Sample.context
           (Sample.proposal Sample.good_patch) Sample.fresh
           "divide_numbers" "__main__" (VFunction Sample.original_source)).
  - vm_compute. reflexivity.
  - vm_compute. reflexivity.
  - vm_compute. reflexivity.
  - vm_compute. reflexivity.
  - vm_compute. reflexivity.
  - discriminate.
Defined.

(** ** The singletons *)

(** [get_llm_client] never returns [None], and a client once created is
    the one every later call returns, whatever the environment then says
    (the key is read only when the first client is built). *)
Theorem get_llm_client_is_cached h p c p1 :
  get_llm_client h p = (Ok c, p1) ->
  exists client,
    c = Some client
    /\ _global_llm_client p1 = Some client
    /\ forall h', get_llm_client h' p1 = (Ok (Some client), p1).
Proof.
  intros E. destruct (get_llm_client_cases h p) as [[e E'] | [client E']];
    rewrite E' in E; [discriminate |].
  injection E as <- <-. exists client.
  assert (Hg : _global_llm_client (set_llm_client (Some client) p) = Some client)
    by reflexivity.
  split; [reflexivity |]. split; [exact Hg |].
  intros h'. unfold get_llm_client, mbind, M_bind, get. simpl. reflexivity.
Qed.

Lemma get_llm_client_is_cached_witness :
  exists client,
    Some Sample.client = Some client
    /\ _global_llm_client (set_llm_client (Some Sample.client) Sample.fresh)
       = Some client
    /\ forall h', get_llm_client h' (set_llm_client (Some Sample.client) Sample.fresh)
                  = (Ok (Some client),
                     set_llm_client (Some Sample.client) Sample.fresh).
Proof.
  apply (get_llm_client_is_cached Sample.healthy_host Sample.fresh).
  vm_compute. reflexivity.
Defined.

(** The first [get_debug_logger] that succeeds leaves the directory
    "debug" in place, keeps every directory that existed with its files, and
    installs the logger that every later call returns. *)
Theorem get_debug_logger_prepares_directory h p l p' :
  _global_debug_logger p = None ->
  get_debug_logger h p = (Ok l, p') ->
  debug_dir l = "debug"
  /\ is_Some (fs p' !! "debug")
  /\ (forall d entries, fs p !! d = Some entries -> fs p' !! d = Some entries)
  /\ forall h', get_debug_logger h' p' = (Ok l, p').
Proof.
  intros Hl. unfold get_debug_logger, mbind, M_bind, get. simpl.
  rewrite Hl.
  unfold DebugLogger_init, ensure_debug_dir, mbind, M_bind, get, modify,
    mret, M_ret. simpl.
  destruct (fs p !! "debug") as [d0 |] eqn:Ed; simpl.
  - intros [= <- <-]. simpl. repeat split; eauto.
  - destruct (makedirs_ok h "debug"); simpl; [| discriminate].
    intros [= <- <-]. simpl. split; [reflexivity |]. split; [| split].
    + rewrite lookup_insert_eq. eauto.
    + intros d entries Hd. rewrite lookup_insert_ne; [exact Hd |].
      intros <-. congruence.
    + reflexivity.
Qed.

Lemma get_debug_logger_prepares_directory_witness :
  debug_dir {| debug_dir := "debug" |} = "debug"
  /\ is_Some (fs (get_debug_logger Sample.healthy_host Sample.fresh).2 !! "debug")
  /\ (forall d entries,
        fs Sample.fresh !! d = Some entries ->
        fs (get_debug_logger Sample.healthy_host Sample.fresh).2 !! d
          = Some entries)
  /\ forall h',
       get_debug_logger h' (get_debug_logger Sample.healthy_host Sample.fresh).2
       = (Ok {| debug_dir := "debug" |},
          (get_debug_logger Sample.healthy_host Sample.fresh).2).
Proof.
  apply (get_debug_logger_prepares_directory Sample.healthy_host Sample.fresh).
  - reflexivity.
  - vm_compute. reflexivity.
Defined.

(** ** Reading the log back *)

Lemma list_ascii_of_append (a b : string) :
  String.list_ascii_of_string (a +:+ b)
  = (String.list_ascii_of_string a ++ String.list_ascii_of_string b)%list.
Proof.
  induction a as [| x a IH]; [reflexivity |].
  rewrite append_cons. simpl. now rewrite IH.
Qed.

Lemma string_of_list_append (x y : list ascii) :
  String.string_of_list_ascii (x ++ y)%list
  = String.string_of_list_ascii x +:+ String.string_of_list_ascii y.
Proof.
  induction x as [| c x IH]; [reflexivity |].
  simpl. rewrite append_cons. now rewrite IH.
Qed.

Lemma rev_append (a b : string) : PyStr.rev (a +:+ b) = PyStr.rev b +:+ PyStr.rev a.
Proof.
  unfold PyStr.rev.
  now rewrite list_ascii_of_append, rev_app_distr, string_of_list_append.
Qed.

Lemma endswith_append (a suffix : string) :
  PyStr.endswith suffix (a +:+ suffix) = true.
Proof.
  unfold PyStr.endswith, PyStr.startswith.
  now rewrite rev_append, strip_prefix_self.
Qed.

(** The name of a session record ends in [.md]. *)
Lemma session_filename_md h ctx :
  PyStr.endswith ".md" (session_filename h ctx) = true.
Proof.
  unfold session_filename. cbv zeta.
  rewrite <- !append_assoc. apply endswith_append.
Qed.

Lemma list_debug_sessions_run self p :
  list_debug_sessions self p =
    (Ok (sort_reverse (session_files (default ∅ (fs p !! debug_dir self)))), p).
Proof.
  unfold list_debug_sessions, mbind, M_bind, get. simpl.
  destruct (fs p !! debug_dir self); reflexivity.
Qed.

Lemma elem_of_sort_reverse x l : x ∈ sort_reverse l <-> x ∈ l.
Proof. now rewrite sort_reverse_perm. Qed.

Lemma insert_desc_descending x l :
  descending l -> descending (insert_desc x l).
Proof.
  unfold descending. induction 1 as [| y l Hl IH Hhd]; simpl.
  - repeat constructor.
  - destruct (String.leb y x) eqn:E.
    + constructor; [constructor; assumption | constructor; exact E].
    + constructor; [exact IH |].
      assert (Hxy : String.leb x y = true)
        by (destruct (String.leb_total x y); congruence).
      destruct l as [| z l]; simpl.
      * constructor. exact Hxy.
      * destruct (String.leb z x); constructor;
          [exact Hxy | now inversion Hhd].
Qed.

(** [list_debug_sessions] returns the names of the directory that end in
    [.md], each once, the greatest name first; the names of the session
    records end in the epoch, so for one program and function that is the
    newest first. It reads the directory and changes nothing; a missing
    directory gives the empty list. *)
Theorem list_debug_sessions_sorted self p :
  exists files,
    list_debug_sessions self p = (Ok files, p)
    /\ NoDup files
    /\ descending files
    /\ (forall f, f ∈ files <->
          PyStr.endswith ".md" f = true
          /\ is_Some (default ∅ (fs p !! debug_dir self) !! f)).
Proof.
  eexists. split; [apply list_debug_sessions_run |]. split; [| split].
  - rewrite sort_reverse_perm. apply session_files_NoDup.
  - unfold sort_reverse.
    induction (session_files _) as [| x l IH]; simpl.
    + constructor.
    + now apply insert_desc_descending.
  - intros f. rewrite elem_of_sort_reverse. apply elem_of_session_files.
Qed.



(** Two sessions whose file names coincide (the same program and
    function within one second) leave one record, that of the second: the
    directory afterwards is the directory before with that one file set. *)
Theorem colliding_sessions_leave_one_record
    h l ctx1 pp1 success1 raw1 msg1 ctx2 pp2 success2 raw2 msg2 p path1 p1 path2 p2 :
  session_filename h ctx1 = session_filename h ctx2 ->
  log_ai_session h l ctx1 pp1 success1 raw1 msg1 p = (Ok (Some path1), p1) ->
  log_ai_session h l ctx2 pp2 success2 raw2 msg2 p1 = (Ok (Some path2), p2) ->
  exists entries,
    fs p !! debug_dir l = Some entries
    /\ path1 = path2
    /\ fs p2 = <[debug_dir l :=
                   <[session_filename h ctx2 :=
                       Text (_generate_debug_markdown h ctx2 pp2 success2
                                                      raw2 msg2)]> entries]>
                 (fs p).
Proof.
  intros Hname E1 E2.
  destruct (log_ai_session_cases h l ctx1 pp1 success1 raw1 msg1 p)
    as [E' | (entries & Hd & _ & _ & E')]; rewrite E' in E1;
    [discriminate |].
  injection E1 as <- <-.
  destruct (log_ai_session_cases h l ctx2 pp2 success2 raw2 msg2
              (set_fs (<[debug_dir l :=
                 <[session_filename h ctx1 :=
                     Text (_generate_debug_markdown h ctx1 pp1 success1
                                                    raw1 msg1)]> entries]>
                 (fs p)) p))
    as [E'' | (entries' & Hd' & _ & _ & E'')]; rewrite E'' in E2;
    [discriminate |].
  injection E2 as <- <-.
  simpl in Hd'. rewrite lookup_insert_eq in Hd'. injection Hd' as <-.
  exists entries. split; [exact Hd |]. split; [now rewrite Hname |].
  simpl. rewrite insert_insert_eq, Hname. now rewrite insert_insert_eq.
Qed.

Lemma colliding_sessions_leave_one_record_witness :
  exists entries,
    fs Sample.with_log_dir !! "debug" = Some entries
    /\ os_path_join "debug" (session_filename Sample.healthy_host Sample.context)
       = os_path_join "debug" (session_filename Sample.healthy_host Sample.context)
    /\ fs (log_ai_session Sample.healthy_host {| debug_dir := "debug" |}
             Sample.context None false None None
             (log_ai_session Sample.healthy_host {| debug_dir := "debug" |}
                Sample.context (Some (Sample.proposal Sample.good_patch)) true
                None None Sample.with_log_dir).2).2
       = <["debug" :=
            <[session_filename Sample.healthy_host Sample.context :=
                Text (_generate_debug_markdown Sample.healthy_host
                        Sample.context None false None None)]> entries]>
           (fs Sample.with_log_dir).
Proof.
  apply (colliding_sessions_leave_one_record Sample.healthy_host
           {| debug_dir := "debug" |}
           Sample.context (Some (Sample.proposal Sample.good_patch)) true
           None None
           Sample.context None false None None Sample.with_log_dir
           (os_path_join "debug"
              (session_filename Sample.healthy_host Sample.context))
           (log_ai_session Sample.healthy_host {| debug_dir := "debug" |}
              Sample.context (Some (Sample.proposal Sample.good_patch)) true
              None None Sample.with_log_dir).2
           (os_path_join "debug"
              (session_filename Sample.healthy_host Sample.context))
           _ eq_refl).
  - vm_compute. reflexivity.
  - vm_compute. reflexivity.
Defined.

Lemma count_successful_bounds entries files :
  (0 <= count_successful entries files <= Z.of_nat (length files))%Z.
Proof.
  induction files as [| f files IH]; simpl; [lia |].
  destruct (entries !! f) as [[c |] |]; try lia.
  destruct (PyStr.contains status_marker c); lia.
Qed.

(** The counts [get_session_stats] returns add up: every session file is
    counted once, as successful or as failed; the success rate is the
    integer 0 exactly when there is no session file. The call changes
    nothing. *)
Theorem get_session_stats_counts self p :
  exists stats,
    get_session_stats self p = (Ok stats, p)
    /\ total_sessions stats
       = Z.of_nat (length (session_files (default ∅ (fs p !! debug_dir self))))
    /\ (total_sessions stats
        = successful_sessions stats + failed_sessions stats)%Z
    /\ (0 <= successful_sessions stats <= total_sessions stats)%Z
    /\ (0 <= failed_sessions stats <= total_sessions stats)%Z
    /\ (success_rate stats = NInt 0 <-> total_sessions stats = 0%Z).
Proof.
  eexists. split; [apply get_session_stats_run |]. cbv zeta. simpl.
  pose proof (count_successful_bounds (default ∅ (fs p !! debug_dir self))
                (sort_reverse (session_files
                                 (default ∅ (fs p !! debug_dir self))))) as Hb.
  split; [now rewrite (Permutation_length (sort_reverse_perm _)) |].
  split; [lia |]. split; [lia |]. split; [lia |].
  destruct (0 <? Z.of_nat (length _))%Z eqn:E.
  - apply Z.ltb_lt in E. split; [discriminate | lia].
  - apply Z.ltb_ge in E. split; [lia | reflexivity].
Qed.

(** ** The whole of [handle] *)





(** After the applier, [handle] changes no module. *)
Lemma handle_path_modules h et ev tb p r p' :
  HandlePath h et ev tb p r p' ->
  modules p' = modules p
  \/ exists ctx c rd success msg p3,
       from_traceback h et ev tb p = (Ok ctx, p)
       /\ Attempt h ctx (set_llm_client (Some c) p) rd success msg p3
       /\ modules p' = modules p3.
Proof.
  set (f := modules).
  intros [ctx e _ _
         | ctx c p1 rd success msg p3 l p4 w p5 Hctx Hc _ Hat Hl Hw
         | ctx c p1 rd success msg p3 e Hctx Hc _ Hat _].
  - now left.
  - right. apply get_llm_client_state in Hc. subst p1.
    exists ctx, c, rd, success, msg, p3. split; [exact Hctx |].
    split; [exact Hat |].
    rewrite (log_ai_session_frames h f _ _ _ _ _ _ (fun _ _ => eq_refl) _ _ _ Hw).
    exact (get_debug_logger_frames h f (fun _ _ => eq_refl)
             (fun _ _ => eq_refl) _ _ _ Hl).
  - right. apply get_llm_client_state in Hc. subst p1.
    exists ctx, c, rd, success, msg, p3. auto.
Qed.




(** Without a proposal the program is not touched: when the generator
    returns [None] for the captured context, [handle] returns [False] and
    leaves every module and the orchestrator as they were. *)
Theorem handle_without_proposal_changes_no_module
    h exc_type exc_value tb p ctx r p' :
  from_traceback h exc_type exc_value tb p = (Ok ctx, p) ->
  (forall c q,
     analyze_exception_and_generate_patch_with_raw h c ctx q = (Ok None, q)) ->
  handle h exc_type exc_value tb p = (Ok r, p') ->
  r = RFalse /\ modules p' = modules p /\ self p' = self p.
Proof.
  intros Hctx Hnone E. apply handle_inv in E.
  destruct E as [ctx' e _ _
                | ctx' c p1 rd success msg p3 l p4 w p5 Hctx' Hc Hrd Hat Hl Hw
                | ctx' c p1 rd success msg p3 e Hctx' Hc Hrd Hat _].
  - auto.
  - rewrite Hctx in Hctx'. injection Hctx' as <-.
    rewrite Hnone in Hrd. injection Hrd as <-.
    inversion Hat; subst.
    apply get_llm_client_state in Hc. subst.
    split; [reflexivity |]. split.
    + rewrite (log_ai_session_frames h modules _ _ _ _ _ _
                 (fun _ _ => eq_refl) _ _ _ Hw).
      exact (get_debug_logger_frames h modules (fun _ _ => eq_refl)
               (fun _ _ => eq_refl) _ _ _ Hl).
    + rewrite (log_ai_session_frames h self _ _ _ _ _ _
                 (fun _ _ => eq_refl) _ _ _ Hw).
      exact (get_debug_logger_frames h self (fun _ _ => eq_refl)
               (fun _ _ => eq_refl) _ _ _ Hl).
  - rewrite Hctx in Hctx'. injection Hctx' as <-.
    rewrite Hnone in Hrd. injection Hrd as <-.
    inversion Hat; subst.
    apply get_llm_client_state in Hc. subst. auto.
Qed.

Lemma handle_without_proposal_changes_no_module_witness :
  (handle Sample.malformed_host Sample.exc_type Sample.exc_value
     (Some Sample.tb) Sample.fresh).1 = Ok RFalse
  /\ RFalse = RFalse
  /\ modules (handle Sample.malformed_host Sample.exc_type Sample.exc_value
                (Some Sample.tb) Sample.fresh).2 = modules Sample.fresh
  /\ self (handle Sample.malformed_host Sample.exc_type Sample.exc_value
             (Some Sample.tb) Sample.fresh).2 = self Sample.fresh.
Proof.
  split; [vm_compute; reflexivity |].
  apply (handle_without_proposal_changes_no_module Sample.malformed_host
           Sample.exc_type Sample.exc_value (Some Sample.tb) Sample.fresh
           Sample.context).
  - vm_compute. reflexivity.
  - intros c q.
    rewrite (analyze_reply Sample.malformed_host c Sample.context q
               "I could not find a fix for this error." eq_refl).
    reflexivity.
  - vm_compute. reflexivity.
Defined.

(** ** Installing the hook more than once *)

(** After one [install_hook], [sys.excepthook] is the hook of the
    claims above. *)
Lemma call_installed_once h exc_type exc_value tb :
  call_hook h (install_hook OriginalHook) exc_type exc_value tb
  = reflex_excepthook h exc_type exc_value tb.
Proof. reflexivity. Qed.



(** ** More on the generator *)

Lemma proposal_of_patch_data_object h payload p proposal q :
  proposal_of_patch_data h payload p = (Ok proposal, q) ->
  exists members cf l,
    payload = JObj members
    /\ member_or members "patch_code" (JStr "") = JStr (patch_code proposal)
    /\ member_or members "explanation" (JStr "") = JStr (explanation proposal)
    /\ py_float h (member_or members "confidence" (JFloat 0.5)) p = (Ok cf, p)
    /\ confidence proposal = cf
    /\ member_or members "test_cases" (JArr []) = JArr l
    /\ all_strings l = Some (test_cases proposal).
Proof.
  unfold proposal_of_patch_data, json_get.
  destruct payload as [| | | | | | members];
    try (unfold mbind, M_bind, raise; simpl; discriminate).
  fold (member_or members "patch_code" (JStr "")).
  fold (member_or members "explanation" (JStr "")).
  fold (member_or members "confidence" (JFloat 0.5)).
  fold (member_or members "test_cases" (JArr [])).
  unfold mbind, M_bind, mret, M_ret. simpl.
  destruct (py_float h (member_or members "confidence" (JFloat 0.5)) p)
    as [[cf | e] q'] eqn:Ef; [| discriminate].
  pose proof (py_float_stateless h _ _ _ _ Ef) as <-.
  unfold PatchProposal_init.
  destruct (member_or members "patch_code" (JStr "")) eqn:Hpc;
    try discriminate.
  destruct (member_or members "explanation" (JStr "")) eqn:Hex;
    try discriminate.
  destruct (member_or members "test_cases" (JArr [])) eqn:Htc;
    try discriminate.
  destruct (all_strings l) eqn:El; [| discriminate].
  intros [= <- <-]. simpl. exists members, cf, l.
  rewrite Ef. auto 10.
Qed.

(** A proposal the generator returns is read off a JSON object: the
    payload parsed from the stripped reply is an object; [patch_code],
    [explanation] and [test_cases] are its members of those names, or "",
    "" and the empty list where a member is absent; and the text returned
    with the proposal is the reply, stripped. *)
Theorem proposal_fields_come_from_the_payload h client ctx p proposal raw p' :
  analyze_exception_and_generate_patch_with_raw h client ctx p
    = (Ok (Some (proposal, raw)), p') ->
  exists content members l,
    chat_completion h ctx = Ok (Some content)
    /\ raw = PyStr.strip content
    /\ parsed_payload h raw = Some (JObj members)
    /\ member_or members "patch_code" (JStr "") = JStr (patch_code proposal)
    /\ member_or members "explanation" (JStr "") = JStr (explanation proposal)
    /\ member_or members "test_cases" (JArr []) = JArr l
    /\ all_strings l = Some (test_cases proposal).
Proof.
  intros E.
  destruct (analyze_some_inv _ _ _ _ _ _ _ E)
    as (content & payload & Hc & Hraw & Hp & Hpp).
  destruct (proposal_of_patch_data_object _ _ _ _ _ Hpp)
    as (members & cf & l & -> & Hpc & Hex & _ & _ & Hl & Hall).
  exists content, members, l. auto 10.
Qed.

Lemma proposal_fields_come_from_the_payload_witness :
  exists content members l,
    chat_completion Sample.fenced_host Sample.context = Ok (Some content)
    /\ Sample.fenced Sample.good_payload = PyStr.strip content
    /\ parsed_payload Sample.fenced_host (Sample.fenced Sample.good_payload)
       = Some (JObj members)
    /\ member_or members "patch_code" (JStr "")
       = JStr (patch_code (Sample.proposal Sample.good_patch))
    /\ member_or members "explanation" (JStr "")
       = JStr (explanation (Sample.proposal Sample.good_patch))
    /\ member_or members "test_cases" (JArr []) = JArr l
    /\ all_strings l = Some (test_cases (Sample.proposal Sample.good_patch)).
Proof.
  apply (proposal_fields_come_from_the_payload Sample.fenced_host
           Sample.client Sample.context Sample.fresh
           (Sample.proposal Sample.good_patch)
           (Sample.fenced Sample.good_payload) Sample.fresh).
  vm_compute. reflexivity.
Defined.

(** A reply that is JSON but not an object (a list, a string, a number,
    [null]) yields no proposal, also when it contains a fenced block that
    would parse: the direct parse succeeded, so the fenced block is not
    consulted, and [patch_data.get] raises. *)
Theorem json_that_is_no_object_yields_none h client ctx p content v :
  chat_completion h ctx = Ok (Some content) ->
  json_loads h (PyStr.strip content) = Some v ->
  (forall members, v <> JObj members) ->
  analyze_exception_and_generate_patch_with_raw h client ctx p = (Ok None, p).
Proof.
  intros Hc Hj Hv. rewrite (analyze_reply _ _ _ _ _ Hc).
  unfold parsed_payload. rewrite Hj. unfold proposal_or_none.
  destruct (proposal_of_patch_data h v p) as [[pp | e] q] eqn:E;
    [| reflexivity].
  destruct (proposal_of_patch_data_object _ _ _ _ _ E) as (members & _ & _ & -> & _).
  now destruct (Hv members).
Qed.

Lemma json_that_is_no_object_yields_none_witness :
  analyze_exception_and_generate_patch_with_raw list_reply_host Sample.client
    Sample.context Sample.fresh = (Ok None, Sample.fresh).
Proof.
  apply (json_that_is_no_object_yields_none list_reply_host Sample.client
           Sample.context Sample.fresh "[]" (JArr [])).
  - reflexivity.
  - reflexivity.
  - discriminate.
Defined.

(** *** What the fenced search can capture *)

Lemma lazy_body_ends_in_brace s g :
  FencedJson.lazy_body s = Some g -> exists body, g = body +:+ "}".
Proof.
  revert g. induction s as [| c s IH]; intros g; [discriminate |].
  rewrite lazy_body_cons.
  destruct (Ascii.eqb_spec c "}") as [-> | _]; simpl.
  - destruct (PyStr.startswith _ _).
    + intros [= <-]. now exists "".
    + destruct (FencedJson.lazy_body s) as [g' |]; [| discriminate].
      intros [= <-]. destruct (IH _ eq_refl) as [body ->].
      now exists (String "}" body).
  - destruct (FencedJson.lazy_body s) as [g' |]; [| discriminate].
    intros [= <-]. destruct (IH _ eq_refl) as [body ->].
    now exists (String c body).
Qed.

Lemma fenced_match_at_braces s g :
  FencedJson.match_at s = Some g -> exists body, g = "{" +:+ body +:+ "}".
Proof.
  unfold FencedJson.match_at.
  destruct (PyStr.strip_prefix _ s) as [r |]; [| discriminate].
  destruct (PyStr.drop_while PyStr.is_space r) as [| c r']; [discriminate |].
  destruct (Ascii.eqb_spec c "{") as [-> | _]; [| discriminate].
  destruct (FencedJson.lazy_body r') as [g' |] eqn:E; [| discriminate].
  intros [= <-]. destruct (lazy_body_ends_in_brace _ _ E) as [body ->].
  now exists body.
Qed.

(** Whatever the search for a fenced block captures begins with an
    opening brace and ends with a closing brace: the recovery pass can hand
    the parser nothing but a candidate object. *)
Theorem fenced_search_captures_braces text g :
  FencedJson.search text = Some g -> exists body, g = "{" +:+ body +:+ "}".
Proof.
  induction text as [| c s IH].
  - intros H. vm_compute in H. discriminate.
  - assert (U : FencedJson.search (String c s) =
                match FencedJson.match_at (String c s) with
                | Some g' => Some g'
                | None => FencedJson.search s
                end) by reflexivity.
    rewrite U. destruct (FencedJson.match_at (String c s)) eqn:E.
    + intros [= <-]. exact (fenced_match_at_braces _ _ E).
    + exact IH.
Qed.

Lemma fenced_search_captures_braces_witness :
  exists body, Sample.good_payload = "{" +:+ body +:+ "}".
Proof.
  apply (fenced_search_captures_braces (Sample.fenced Sample.good_payload)).
  vm_compute. reflexivity.
Defined.

(** ** The program name of a record *)

Lemma all_chars_append p (a b : string) :
  PyStr.all_chars p (a +:+ b) = PyStr.all_chars p a && PyStr.all_chars p b.
Proof.
  induction a as [| x a IH]; [reflexivity |].
  rewrite append_cons, !all_chars_cons, IH. now rewrite andb_assoc.
Qed.

Lemma split_last_cons sep c (s : string) :
  PyStr.split_last sep (String c s) =
    match PyStr.split_last sep s with
    | Some (a, b) => Some (String c a, b)
    | None => if Ascii.eqb c sep then Some (EmptyString, s) else None
    end.
Proof. reflexivity. Qed.

Lemma split_last_none_chars sep (s : string) :
  PyStr.split_last sep s = None ->
  PyStr.all_chars (fun c => negb (Ascii.eqb c sep)) s = true.
Proof.
  induction s as [| x s IH]; [reflexivity |].
  rewrite split_last_cons, all_chars_cons.
  destruct (PyStr.split_last sep s) as [[? ?] |]; [discriminate |].
  destruct (Ascii.eqb x sep); [discriminate |].
  intros _. now rewrite IH.
Qed.

Lemma split_last_parts sep (s a b : string) :
  PyStr.split_last sep s = Some (a, b) ->
  s = a +:+ String sep b
  /\ PyStr.all_chars (fun c => negb (Ascii.eqb c sep)) b = true.
Proof.
  revert a b. induction s as [| c s IH]; intros a b; [discriminate |].
  rewrite split_last_cons.
  destruct (PyStr.split_last sep s) as [[a' b'] |] eqn:E.
  - intros [= <- <-]. destruct (IH _ _ eq_refl) as [-> Hb].
    split; [reflexivity | exact Hb].
  - destruct (Ascii.eqb_spec c sep) as [-> | _]; [| discriminate].
    intros [= <- <-]. split; [reflexivity |].
    now apply split_last_none_chars.
Qed.

Lemma basename_no_separator path :
  PyStr.all_chars (fun c => negb (Ascii.eqb c "/")) (PyStr.basename path) = true.
Proof.
  unfold PyStr.basename.
  destruct (PyStr.split_last "/" path) as [[a b] |] eqn:E.
  - now destruct (split_last_parts _ _ _ _ E).
  - now apply split_last_none_chars.
Qed.

Lemma splitext_root_chars p (s : string) :
  PyStr.all_chars p s = true -> PyStr.all_chars p (PyStr.splitext_root s) = true.
Proof.
  intros Hs. unfold PyStr.splitext_root.
  destruct (PyStr.split_last "." s) as [[a b] |] eqn:E; [| exact Hs].
  destruct (PyStr.all_chars _ a); [exact Hs |].
  destruct (split_last_parts _ _ _ _ E) as [-> _].
  rewrite all_chars_append in Hs. now apply andb_true_iff in Hs as [Ha _].
Qed.

Lemma replace_char_name_chars (s : string) :
  PyStr.all_chars (fun c => negb (Ascii.eqb c "/")) s = true ->
  PyStr.all_chars name_char
    (PyStr.replace_char "-" "_" (PyStr.replace_char " " "_" s)) = true.
Proof.
  induction s as [| x s IH]; [reflexivity |].
  rewrite all_chars_cons. intros [Hx Hs]%andb_true_iff.
  change (PyStr.replace_char "-" "_" (PyStr.replace_char " " "_" (String x s)))
    with (String (if Ascii.eqb (if Ascii.eqb x " " then "_"%char else x) "-"
                  then "_"%char else (if Ascii.eqb x " " then "_"%char else x))
                 (PyStr.replace_char "-" "_" (PyStr.replace_char " " "_" s))).
  rewrite all_chars_cons, (IH Hs), andb_true_r.
  unfold name_char.
  destruct (Ascii.eqb_spec x " ") as [-> | Hsp]; [reflexivity |].
  destruct (Ascii.eqb_spec x "-") as [-> | Hd]; [reflexivity |].
  rewrite Hx. simpl.
  destruct (Ascii.eqb_spec x " "); [contradiction |].
  destruct (Ascii.eqb_spec x "-"); [contradiction | reflexivity].
Qed.

(** The program name [_extract_program_name] derives from any path holds
    no path separator, no space and no dash, so the program part of a record
    name cannot leave the log directory; for the empty path it is
    "unknown". *)
Theorem _extract_program_name_is_clean file_path :
  PyStr.all_chars name_char (_extract_program_name file_path) = true
  /\ _extract_program_name "" = "unknown".
Proof.
  split; [| reflexivity].
  unfold _extract_program_name.
  destruct (String.eqb file_path ""); [reflexivity |].
  apply replace_char_name_chars, splitext_root_chars, basename_no_separator.
Qed.

(** ** Counting what was logged *)

Lemma session_files_insert_fresh entries name file :
  entries !! name = None -> PyStr.endswith ".md" name = true ->
  session_files (<[name := file]> entries) ≡ₚ name :: session_files entries.
Proof.
  intros Hfresh Hmd. unfold session_files.
  rewrite (map_to_list_insert _ _ _ Hfresh). simpl.
  rewrite filter_cons_True by exact Hmd. reflexivity.
Qed.

Lemma count_successful_insert_other entries name file files :
  name ∉ files ->
  count_successful (<[name := file]> entries) files
  = count_successful entries files.
Proof.
  induction files as [| f files IH]; [reflexivity |].
  intros Hn. apply not_elem_of_cons in Hn as [Hne Hn]. simpl.
  rewrite lookup_insert_ne by congruence. now rewrite (IH Hn).
Qed.

(** What one logged session adds to the statistics when it is written
    under a name not yet in the directory: one session, and one successful
    session exactly when its record carries the marker. *)
Lemma logged_record_is_counted h l ctx pp success raw msg p path p' before after :
  default ∅ (fs p !! debug_dir l) !! session_filename h ctx = None ->
  log_ai_session h l ctx pp success raw msg p = (Ok (Some path), p') ->
  get_session_stats l p = (Ok before, p) ->
  get_session_stats l p' = (Ok after, p') ->
  total_sessions after = (total_sessions before + 1)%Z
  /\ successful_sessions after
     = (successful_sessions before
        + if PyStr.contains status_marker
               (_generate_debug_markdown h ctx pp success raw msg)
          then 1 else 0)%Z
  /\ failed_sessions after
     = (failed_sessions before
        + if PyStr.contains status_marker
               (_generate_debug_markdown h ctx pp success raw msg)
          then 0 else 1)%Z.
Proof.
  intros Hfresh E Hb Ha.
  destruct (log_ai_session_cases h l ctx pp success raw msg p)
    as [E' | (entries & Hd & _ & _ & E')]; rewrite E' in E;
    [discriminate |].
  injection E as _ <-.
  rewrite get_session_stats_run in Hb, Ha. cbv zeta in Hb, Ha.
  injection Hb as <-. injection Ha as <-. simpl.
  rewrite Hd in *. rewrite lookup_insert_eq. simpl in *.
  set (name := session_filename h ctx) in *.
  set (content := _generate_debug_markdown h ctx pp success raw msg).
  set (file := Text content).
  pose proof (session_files_insert_fresh entries name file Hfresh
                (session_filename_md h ctx)) as Hperm.
  assert (Hnotin : name ∉ session_files entries).
  { rewrite elem_of_session_files. intros [_ [f Hf]]. congruence. }
  assert (Hlen : length (sort_reverse (session_files (<[name := file]> entries)))
                 = S (length (sort_reverse (session_files entries)))).
  { rewrite !(Permutation_length (sort_reverse_perm _)).
    now rewrite (Permutation_length Hperm). }
  assert (Hcount : count_successful (<[name := file]> entries)
                     (sort_reverse (session_files (<[name := file]> entries)))
                   = ((if PyStr.contains status_marker content then 1 else 0)
                      + count_successful entries
                          (sort_reverse (session_files entries)))%Z).
  { rewrite (count_successful_perm _ _ _ (sort_reverse_perm _)).
    rewrite (count_successful_perm _ _ _ Hperm). simpl.
    rewrite lookup_insert_eq. unfold file.
    rewrite (count_successful_insert_other _ _ _ _ Hnotin).
    now rewrite (count_successful_perm _ _ _ (sort_reverse_perm _)). }
  rewrite Hlen, Hcount. destruct (PyStr.contains status_marker content); lia.
Qed.

(** The statistics after a successful session has been logged under a
    name not yet in the directory: one session more, one successful session
    more, as many failed ones as before. *)
Theorem logged_success_is_counted h l ctx pp raw msg p path p' before after :
  default ∅ (fs p !! debug_dir l) !! session_filename h ctx = None ->
  log_ai_session h l ctx pp true raw msg p = (Ok (Some path), p') ->
  get_session_stats l p = (Ok before, p) ->
  get_session_stats l p' = (Ok after, p') ->
  total_sessions after = (total_sessions before + 1)%Z
  /\ successful_sessions after = (successful_sessions before + 1)%Z
  /\ failed_sessions after = failed_sessions before.
Proof.
  intros Hfresh E Hb Ha.
  pose proof (logged_record_is_counted _ _ _ _ _ _ _ _ _ _ _ _
                Hfresh E Hb Ha) as H.
  rewrite markdown_success_marker in H. lia.
Qed.

Lemma logged_success_is_counted_witness :
  total_sessions
    {| total_sessions := 1; successful_sessions := 1; failed_sessions := 0;
       success_rate := NFloat 100 |}
  = (total_sessions
       {| total_sessions := 0; successful_sessions := 0; failed_sessions := 0;
          success_rate := NInt 0 |} + 1)%Z
  /\ successful_sessions
       {| total_sessions := 1; successful_sessions := 1; failed_sessions := 0;
          success_rate := NFloat 100 |}
     = (successful_sessions
          {| total_sessions := 0; successful_sessions := 0;
             failed_sessions := 0; success_rate := NInt 0 |} + 1)%Z
  /\ failed_sessions
       {| total_sessions := 1; successful_sessions := 1; failed_sessions := 0;
          success_rate := NFloat 100 |}
     = failed_sessions
         {| total_sessions := 0; successful_sessions := 0; failed_sessions := 0;
            success_rate := NInt 0 |}.
Proof.
  apply (logged_success_is_counted Sample.healthy_host
           {| debug_dir := "debug" |} Sample.context
           (Some (Sample.proposal Sample.good_patch)) None None
           Sample.with_log_dir
           (os_path_join "debug"
              (session_filename Sample.healthy_host Sample.context))
           (log_ai_session Sample.healthy_host {| debug_dir := "debug" |}
              Sample.context (Some (Sample.proposal Sample.good_patch)) true
              None None Sample.with_log_dir).2).
  - vm_compute. reflexivity.
  - vm_compute. reflexivity.
  - vm_compute. reflexivity.
  - vm_compute. reflexivity.
Defined.

(** ** The source window *)

Lemma collect_lines_length h file_path line_number range :
  (length (collect_lines h file_path line_number range) <= length range)%nat.
Proof.
  induction range as [| i range IH]; simpl; [lia |].
  destruct (String.eqb _ ""); simpl; lia.
Qed.

Lemma collect_lines_marks h file_path line_number range :
  line_number ∈ range ->
  linecache_getline h file_path line_number <> "" ->
  (">>> " +:+ PyStr.of_Z line_number +:+ ": "
   +:+ PyStr.rstrip (linecache_getline h file_path line_number))
  ∈ collect_lines h file_path line_number range.
Proof.
  intros Hin Hline. induction range as [| i range IH];
    [now apply elem_of_nil in Hin |].
  simpl. apply elem_of_cons in Hin as [<- | Hin].
  - destruct (String.eqb_spec (linecache_getline h file_path line_number) "");
      [contradiction |].
    rewrite Z.eqb_refl. apply elem_of_cons. now left.
  - destruct (String.eqb _ ""); [now apply IH |].
    apply elem_of_cons. right. now apply IH.
Qed.

(** The source window of a captured context holds at most five lines,
    and when the failing line can be read it holds that line, marked
    [>>>], numbered and without its trailing white space. *)
Theorem source_window_marks_the_failing_line h exc_type exc_value tb p :
  (1 <= tb_lineno tb)%Z ->
  linecache_getline h (co_filename tb) (tb_lineno tb) <> "" ->
  exists ctx lines,
    from_traceback h exc_type exc_value (Some tb) p = (Ok ctx, p)
    /\ source_code ctx = PyStr.join PyStr.nl lines
    /\ (length lines <= 5)%nat
    /\ (">>> " +:+ PyStr.of_Z (tb_lineno tb) +:+ ": "
        +:+ PyStr.rstrip (linecache_getline h (co_filename tb) (tb_lineno tb)))
       ∈ lines.
Proof.
  intros Hn Hline. eexists _, _. split; [reflexivity |].
  split; [reflexivity |]. split.
  - etransitivity; [apply collect_lines_length |].
    rewrite length_seqZ. lia.
  - apply collect_lines_marks; [| exact Hline].
    apply elem_of_seqZ. lia.
Qed.

Lemma source_window_marks_the_failing_line_witness :
  exists ctx lines,
    from_traceback Sample.healthy_host Sample.exc_type Sample.exc_value
      (Some Sample.tb) Sample.fresh = (Ok ctx, Sample.fresh)
    /\ source_code ctx = PyStr.join PyStr.nl lines
    /\ (length lines <= 5)%nat
    /\ (">>> " +:+ PyStr.of_Z (tb_lineno Sample.tb) +:+ ": "
        +:+ PyStr.rstrip
              (linecache_getline Sample.healthy_host (co_filename Sample.tb)
                 (tb_lineno Sample.tb)))
       ∈ lines.
Proof.
  apply (source_window_marks_the_failing_line Sample.healthy_host
           Sample.exc_type Sample.exc_value Sample.tb Sample.fresh).
  - vm_compute. discriminate.
  - vm_compute. discriminate.
Defined.

(** ** A failed session that reads as a success *)

Lemma contains_append_r sub a b :
  PyStr.contains sub b = true -> PyStr.contains sub (a +:+ b) = true.
Proof.
  intros H. induction a as [| x a IH]; [now rewrite append_nil |].
  rewrite append_cons, contains_unfold.
  destruct (PyStr.startswith sub (String x (a +:+ b))); [reflexivity | exact IH].
Qed.

Lemma markdown_carries_the_message h ctx pp success raw msg sub :
  PyStr.contains sub (exception_message ctx) = true ->
  PyStr.contains sub (_generate_debug_markdown h ctx pp success raw msg) = true.
Proof.
  intros H. unfold _generate_debug_markdown. cbv zeta.
  repeat match goal with
         | |- PyStr.contains _ (match ?x with _ => _ end) = true => destruct x
         | |- PyStr.contains _ ((match ?x with _ => _ end) +:+ _) = true =>
             apply contains_append
         | |- PyStr.contains _ ((_ +:+ _) +:+ _) = true => apply contains_append
         end;
  repeat match goal with
           | |- PyStr.contains _ (exception_message ctx +:+ _) = true =>
               apply contains_append; exact H
           | |- PyStr.contains _ (_ +:+ _) = true => apply contains_append_r
           end.
Qed.

(** The statistics read the outcome of a session off the text of its
    record, and the record quotes the exception message: a failed session
    whose exception message contains the success marker is counted as a
    successful one, and the count of failed sessions does not move. *)
Theorem failed_session_counts_as_successful
    h l ctx pp raw msg p path p' before after :
  PyStr.contains status_marker (exception_message ctx) = true ->
  default ∅ (fs p !! debug_dir l) !! session_filename h ctx = None ->
  log_ai_session h l ctx pp false raw msg p = (Ok (Some path), p') ->
  get_session_stats l p = (Ok before, p) ->
  get_session_stats l p' = (Ok after, p') ->
  total_sessions after = (total_sessions before + 1)%Z
  /\ successful_sessions after = (successful_sessions before + 1)%Z
  /\ failed_sessions after = failed_sessions before.
Proof.
  intros Hm Hfresh E Hb Ha.
  pose proof (logged_record_is_counted _ _ _ _ _ _ _ _ _ _ _ _
                Hfresh E Hb Ha) as H.
  rewrite (markdown_carries_the_message _ _ _ _ _ _ _ Hm) in H. lia.
Qed.

Lemma failed_session_counts_as_successful_witness :
  total_sessions
    {| total_sessions := 1; successful_sessions := 1; failed_sessions := 0;
       success_rate := NFloat 100 |}
  = (total_sessions
       {| total_sessions := 0; successful_sessions := 0; failed_sessions := 0;
          success_rate := NInt 0 |} + 1)%Z
  /\ successful_sessions
       {| total_sessions := 1; successful_sessions := 1; failed_sessions := 0;
          success_rate := NFloat 100 |}
     = (successful_sessions
          {| total_sessions := 0; successful_sessions := 0;
             failed_sessions := 0; success_rate := NInt 0 |} + 1)%Z
  /\ failed_sessions
       {| total_sessions := 1; successful_sessions := 1; failed_sessions := 0;
          success_rate := NFloat 100 |}
     = failed_sessions
         {| total_sessions := 0; successful_sessions := 0; failed_sessions := 0;
            success_rate := NInt 0 |}.
Proof.
  apply (failed_session_counts_as_successful Sample.healthy_host
           {| debug_dir := "debug" |}
           {| exception_type := "ValueError";
              exception_message := "**Status:** SUCCESS";
              traceback_str := traceback_str Sample.context;
              target_fqn := target_fqn Sample.context;
              source_code := source_code Sample.context;
              file_path := file_path Sample.context;
              line_number := line_number Sample.context;
              local_vars := local_vars Sample.context |}
           None None (Some "LLM could not generate a patch")
           Sample.with_log_dir
           (os_path_join "debug"
              (session_filename Sample.healthy_host Sample.context))
           (log_ai_session Sample.healthy_host {| debug_dir := "debug" |}
              {| exception_type := "ValueError";
                 exception_message := "**Status:** SUCCESS";
                 traceback_str := traceback_str Sample.context;
                 target_fqn := target_fqn Sample.context;
                 source_code := source_code Sample.context;
                 file_path := file_path Sample.context;
                 line_number := line_number Sample.context;
                 local_vars := local_vars Sample.context |}
              None false None (Some "LLM could not generate a patch")
              Sample.with_log_dir).2).
  - vm_compute. reflexivity.
  - vm_compute. reflexivity.
  - vm_compute. reflexivity.
  - vm_compute. reflexivity.
  - vm_compute. reflexivity.
Defined.
